(** * SkillSync-AI: resume evaluation pipeline

    A shallow embedding of [src/utils.py] and [src/resume_analysis.py]
    (with the session keys set by [src/app.py] and
    [src/authentication.py]), and the properties of the evaluation
    pipeline proved over it. *)

From Stdlib Require Import ZArith QArith Lia Bool Ascii String List.
From Stdlib Require Import Strings.Byte.
From Stdlib Require Import Permutation Sorting.Sorted.
From Stdlib Require Import Floats.SpecFloat.
From stdpp Require Import base option list sorting gmap strings pretty.

Import ListNotations.
Local Open Scope Z_scope.

Set Warnings "-register-all".

(** ** Python values

    The values [json.loads] produces.  A [str] is a [string]: one [ascii]
    per code point, so code points below 256.  A [float] is given by sign,
    mantissa and exponent.  A JSON object is a [dict] with [str] keys. *)

Inductive pyvalue : Type :=
| VNone
| VBool (b : bool)
| VInt (z : Z)
| VFloat (f : spec_float)
| VStr (s : string)
| VList (l : list pyvalue)
| VDict (d : gmap string pyvalue).

(** [type(x).__name__], as the interpreter's messages print it. *)
Definition type_name (x : pyvalue) : string :=
  match x with
  | VNone => "NoneType"
  | VBool _ => "bool"
  | VInt _ => "int"
  | VFloat _ => "float"
  | VStr _ => "str"
  | VList _ => "list"
  | VDict _ => "dict"
  end.

(** Truth value of an object: [if x], [not x]. *)
Definition truthy (x : pyvalue) : bool :=
  match x with
  | VNone => false
  | VBool b => b
  | VInt z => negb (z =? 0)
  | VFloat (S754_zero _) => false
  | VFloat _ => true
  | VStr s => negb (String.eqb s "")
  | VList l => match l with [] => false | _ => true end
  | VDict d => negb (Nat.eqb (size d) 0)
  end.

(** Numbers compare across [bool], [int] and [float] by value. *)
Inductive number : Type :=
| NInt (z : Z)
| NFloat (f : spec_float).

Definition as_number (x : pyvalue) : option number :=
  match x with
  | VBool b => Some (NInt (if b then 1 else 0))
  | VInt z => Some (NInt z)
  | VFloat f => Some (NFloat f)
  | _ => None
  end.

Definition float_eq_int (f : spec_float) (z : Z) : bool :=
  match f with
  | S754_zero _ => z =? 0
  | S754_finite s m e =>
      let v := if s then Z.neg m else Z.pos m in
      if 0 <=? e then z =? v * 2 ^ e
      else (v mod 2 ^ (- e) =? 0) && (z =? v / 2 ^ (- e))
  | _ => false
  end.

Definition number_eqb (x y : number) : bool :=
  match x, y with
  | NInt a, NInt b => a =? b
  | NFloat f, NFloat g => SFeqb f g
  | NInt a, NFloat g => float_eq_int g a
  | NFloat f, NInt b => float_eq_int f b
  end.

(** [a == b].  (Where CPython's containers first test identity, [a is b],
    the result differs from [==] only on a NaN.) *)
Fixpoint py_eq (a b : pyvalue) : bool :=
  match a, b with
  | VNone, VNone => true
  | VStr s, VStr t => String.eqb s t
  | VList la, VList lb =>
      (fix go (xs ys : list pyvalue) : bool :=
         match xs, ys with
         | [], [] => true
         | x :: xs', y :: ys' => py_eq x y && go xs' ys'
         | _, _ => false
         end) la lb
  | VDict da, VDict db =>
      Nat.eqb (size da) (size db) &&
      map_fold (fun k v acc =>
                  acc && match db !! k with
                         | Some w => py_eq v w
                         | None => false
                         end) true da
  | _, _ =>
      match as_number a, as_number b with
      | Some x, Some y => number_eqb x y
      | _, _ => false
      end
  end.

(** ** Strings *)

(** [str.isspace] on one code point below 256. *)
Definition is_space (c : ascii) : bool :=
  let n := N_of_ascii c in
  ((9 <=? n) && (n <=? 13) || (28 <=? n) && (n <=? 32)
   || (n =? 133) || (n =? 160))%N.

Fixpoint lstrip (s : string) : string :=
  match s with
  | EmptyString => EmptyString
  | String c s' => if is_space c then lstrip s' else s
  end.

Fixpoint rstrip (s : string) : string :=
  match s with
  | EmptyString => EmptyString
  | String c s' =>
      match rstrip s' with
      | EmptyString => if is_space c then EmptyString else String c EmptyString
      | t => String c t
      end
  end.

(** [s.strip()] *)
Definition strip (s : string) : string := rstrip (lstrip s).

Fixpoint is_prefix (p s : string) : bool :=
  match p, s with
  | EmptyString, _ => true
  | String a p', String b s' => Ascii.eqb a b && is_prefix p' s'
  | String _ _, EmptyString => false
  end.

(** [p in s] on two strings. *)
Fixpoint is_substring (p s : string) : bool :=
  is_prefix p s ||
  match s with
  | EmptyString => false
  | String _ s' => is_substring p s'
  end.

(** [sep.join(parts)] *)
Fixpoint join (sep : string) (parts : list string) : string :=
  match parts with
  | [] => ""
  | [p] => p
  | p :: rest => p +:+ sep +:+ join sep rest
  end.

Definition newline : string := String (ascii_of_nat 10) EmptyString.
Definition dquote : string := String (ascii_of_nat 34) EmptyString.
Definition quoted (s : string) : string := dquote +:+ s +:+ dquote.

(** ** Exceptions

    Every exception the pipeline meets derives from [Exception];
    [str(err)] is the message. *)

Inductive exn_class : Type :=
| ValueError
| TypeError
| AttributeError
| KeyError
| OverflowError
| LibraryError (name : string).

Record exn : Type := Exn { exn_type : exn_class; exn_msg : string }.

Inductive result (A : Type) : Type :=
| Ok (a : A)
| Raise (e : exn).
Arguments Ok {A} a.
Arguments Raise {A} e.

Definition rbind {A B} (r : result A) (k : A -> result B) : result B :=
  match r with
  | Ok a => k a
  | Raise e => Raise e
  end.

(** [try: body  except Exception as e: handler e] *)
Definition try_except {A} (body : result A) (handler : exn -> result A)
  : result A :=
  match body with
  | Ok a => Ok a
  | Raise e => handler e
  end.

#[global] Instance result_ret : MRet result := fun _ a => Ok a.
#[global] Instance result_bind : MBind result := fun _ _ k r => rbind r k.

(** ** Built-in operations on values *)

(** [int(f)] on a float: truncation towards zero. *)
Definition int_of_float (f : spec_float) : result Z :=
  match f with
  | S754_zero _ => Ok 0
  | S754_infinity _ =>
      Raise (Exn OverflowError "cannot convert float infinity to integer")
  | S754_nan => Raise (Exn ValueError "cannot convert float NaN to integer")
  | S754_finite s m e =>
      let mag := Z.shiftl (Z.pos m) e in
      Ok (if s then - mag else mag)
  end.

(** [needle in x] for a [str] needle. *)
Definition py_contains (needle : string) (x : pyvalue) : result bool :=
  match x with
  | VDict d => Ok (bool_decide (is_Some (d !! needle)))
  | VList l => Ok (existsb (py_eq (VStr needle)) l)
  | VStr s => Ok (is_substring needle s)
  | _ =>
      Raise (Exn TypeError
               ("argument of type '" +:+ type_name x +:+ "' is not iterable"))
  end.

(** [x.get(key, dflt)]: only a [dict] has the method. *)
Definition py_get (x : pyvalue) (key : string) (dflt : pyvalue)
  : result pyvalue :=
  match x with
  | VDict d => Ok (default dflt (d !! key))
  | _ =>
      Raise (Exn AttributeError
               ("'" +:+ type_name x +:+ "' object has no attribute 'get'"))
  end.

(** [x[key]] for a [str] key. *)
Definition py_getitem (x : pyvalue) (key : string) : result pyvalue :=
  match x with
  | VDict d =>
      match d !! key with
      | Some v => Ok v
      | None => Raise (Exn KeyError ("'" +:+ key +:+ "'"))
      end
  | VList _ =>
      Raise (Exn TypeError "list indices must be integers or slices, not str")
  | VStr _ => Raise (Exn TypeError "string indices must be integers, not 'str'")
  | _ =>
      Raise (Exn TypeError
               ("'" +:+ type_name x +:+ "' object is not subscriptable"))
  end.

Fixpoint chars (s : string) : list pyvalue :=
  match s with
  | EmptyString => []
  | String c s' => VStr (String c EmptyString) :: chars s'
  end.

(** The items [for entry in x] visits. *)
Definition py_iter (x : pyvalue) : result (list pyvalue) :=
  match x with
  | VList l => Ok l
  | VStr s => Ok (chars s)
  | VDict d => Ok (map (fun kv => VStr (fst kv)) (map_to_list d))
  | _ =>
      Raise (Exn TypeError
               ("'" +:+ type_name x +:+ "' object is not iterable"))
  end.

Definition hashable (x : pyvalue) : bool :=
  match x with
  | VList _ | VDict _ => false
  | _ => true
  end.

(** [l.index(x)] *)
Fixpoint index_from (x : pyvalue) (l : list pyvalue) (i : nat) : option nat :=
  match l with
  | [] => None
  | y :: l' => if py_eq y x then Some i else index_from x l' (S i)
  end.

(** ** The interpreter and the libraries around the repository

    What the code calls and the repository does not define: the AI
    service ([chat.completions.create] and the read of
    [choices[0].message.content], given the requests made so far),
    [json.loads], pdfplumber, python-docx, [bytes.decode], [int] on a
    [str], and [str] on a value that is not a [str]. *)

Record ai_request : Type := {
  model : string;
  system_content : string;
  user_content : string;
  max_tokens : Z;
  temperature : Q;
  response_format : string }.

Record externals : Type := {
  chat_completion : list ai_request -> ai_request -> result (option string);
  json_loads : string -> result pyvalue;
  pdf_pages : list byte -> result (list (option string));
  docx_paragraphs : list byte -> result (list string);
  utf8_decode : list byte -> result string;
  int_of_str : string -> result Z;
  str_of : pyvalue -> string }.

(** An uploaded file: [resume.name], [resume.type] and its bytes. *)
Record uploaded_file : Type := {
  name : string;
  type : string;
  data : list byte }.

Section Utils.
Context (ext : externals).

(** [int(x)] *)
Definition py_int (x : pyvalue) : result Z :=
  match x with
  | VBool b => Ok (if b then 1 else 0)
  | VInt z => Ok z
  | VFloat f => int_of_float f
  | VStr s => int_of_str ext s
  | _ =>
      Raise (Exn TypeError
               ("int() argument must be a string, a bytes-like object or "
                +:+ "a real number, not '" +:+ type_name x +:+ "'"))
  end.

(** [str(x)], as an f-string formats a value. *)
Definition py_str (x : pyvalue) : string :=
  match x with
  | VStr s => s
  | _ => str_of ext x
  end.

(** [json.loads(content)]; the content of a reply can be [None]. *)
Definition json_loads_content (content : option string) : result pyvalue :=
  match content with
  | Some s => json_loads ext s
  | None =>
      Raise (Exn TypeError
               "the JSON object must be str, bytes or bytearray, not NoneType")
  end.

(** utils.py *)

Definition get_pdf_content (pdf_path : uploaded_file) : result string :=
  pages ← pdf_pages ext (data pdf_path);
  mret (strip (join newline (map (default "") pages))).

Definition get_docx_content (docx_path : uploaded_file) : result string :=
  paras ← docx_paragraphs ext (data docx_path);
  mret (strip (join newline paras)).

Definition get_txt_content (txt_file : uploaded_file) : result string :=
  text ← utf8_decode ext (data txt_file);
  mret (strip text).

Definition fetch_text_content (file_obj : uploaded_file) : result string :=
  if String.eqb (type file_obj) "application/pdf" then
    get_pdf_content file_obj
  else if String.eqb (type file_obj)
            "application/vnd.openxmlformats-officedocument.wordprocessingml.document"
          || String.eqb (type file_obj) "application/msword" then
    get_docx_content file_obj
  else if String.eqb (type file_obj) "text/plain" then
    get_txt_content file_obj
  else
    Raise (Exn ValueError
             "Unsupported file type. Provide PDF, DOCX, or TXT only.").

End Utils.

(** ** Session state and effects

    [st.session_state], with the keys the repository uses; [None] is a key
    that is not set.  A result row is the dict the batch loop appends. *)

Record candidate_entry : Type := {
  Candidate_Name : pyvalue;
  Email : pyvalue;
  Score : Z;
  Match : pyvalue;
  Skills_Found : pyvalue;
  Rationale : pyvalue }.

Record session_state : Type := {
  logged_in : option pyvalue;
  user_details : option pyvalue;
  user_role : option pyvalue;
  user_info : option pyvalue;
  results : option (list candidate_entry);
  resume_texts : option (list (pyvalue * string));
  qa_output : option pyvalue;
  selected_candidate : option pyvalue;
  qa_data : option pyvalue }.

Definition set_results (v : list candidate_entry) (s : session_state)
  : session_state :=
  {| logged_in := logged_in s; user_details := user_details s;
     user_role := user_role s; user_info := user_info s;
     results := Some v; resume_texts := resume_texts s;
     qa_output := qa_output s; selected_candidate := selected_candidate s;
     qa_data := qa_data s |}.

Definition set_resume_texts (v : list (pyvalue * string)) (s : session_state)
  : session_state :=
  {| logged_in := logged_in s; user_details := user_details s;
     user_role := user_role s; user_info := user_info s;
     results := results s; resume_texts := Some v;
     qa_output := qa_output s; selected_candidate := selected_candidate s;
     qa_data := qa_data s |}.

Definition set_qa_output (v : pyvalue) (s : session_state) : session_state :=
  {| logged_in := logged_in s; user_details := user_details s;
     user_role := user_role s; user_info := user_info s;
     results := results s; resume_texts := resume_texts s;
     qa_output := Some v; selected_candidate := selected_candidate s;
     qa_data := qa_data s |}.

Definition set_selected_candidate (v : pyvalue) (s : session_state)
  : session_state :=
  {| logged_in := logged_in s; user_details := user_details s;
     user_role := user_role s; user_info := user_info s;
     results := results s; resume_texts := resume_texts s;
     qa_output := qa_output s; selected_candidate := Some v;
     qa_data := qa_data s |}.

Definition set_qa_data (v : pyvalue) (s : session_state) : session_state :=
  {| logged_in := logged_in s; user_details := user_details s;
     user_role := user_role s; user_info := user_info s;
     results := results s; resume_texts := resume_texts s;
     qa_output := qa_output s; selected_candidate := selected_candidate s;
     qa_data := Some v |}.

(** The session left by app.py and [authentication.login_user] once a
    user is logged in: [logged_in], [user_details] and [user_role]. *)
Definition session_after_login (user_data : gmap string pyvalue)
  : session_state :=
  {| logged_in := Some (VBool true);
     user_details := Some (VDict user_data);
     user_role := Some (default (VStr "user") (user_data !! "role"));
     user_info := None;
     results := None; resume_texts := None; qa_output := None;
     selected_candidate := None; qa_data := None |}.

(** What a run can be observed to do: the session, the requests sent to
    the AI service, the [st.error] messages and the
    [authentication.log_usage(email, count)] calls, each in order. *)
Record world : Type := {
  session : session_state;
  ai_calls : list ai_request;
  st_errors : list string;
  usage_logs : list (pyvalue * nat) }.

Definition M (A : Type) : Type := world -> result A * world.

#[global] Instance M_ret : MRet M := fun _ a w => (Ok a, w).
#[global] Instance M_bind : MBind M := fun _ _ k m w =>
  match m w with
  | (Ok a, w') => k a w'
  | (Raise e, w') => (Raise e, w')
  end.

Definition lift {A} (r : result A) : M A := fun w => (r, w).

(** [try: body  except Exception as e: handler e]; what [body] did before
    it raised stays done. *)
Definition try_exceptM {A} (body : M A) (handler : exn -> M A) : M A :=
  fun w =>
    match body w with
    | (Ok a, w') => (Ok a, w')
    | (Raise e, w') => handler e w'
    end.

Definition get_session : M session_state := fun w => (Ok (session w), w).

Definition modify_session (f : session_state -> session_state) : M unit :=
  fun w =>
    (Ok tt, {| session := f (session w); ai_calls := ai_calls w;
               st_errors := st_errors w; usage_logs := usage_logs w |}).

(** [st.session_state.<key>]: a key that is not set raises. *)
Definition session_attr {A} (field : session_state -> option A)
    (key : string) : M A :=
  fun w =>
    match field (session w) with
    | Some v => (Ok v, w)
    | None =>
        (Raise (Exn AttributeError
                  ("st.session_state has no attribute " +:+ quoted key
                   +:+ ". Did you forget to initialize it? More info: "
                   +:+ "https://docs.streamlit.io/develop/concepts/"
                   +:+ "architecture/session-state#initialization")), w)
    end.

(** [st.error(msg)] *)
Definition st_error (msg : string) : M unit :=
  fun w =>
    (Ok tt, {| session := session w; ai_calls := ai_calls w;
               st_errors := st_errors w ++ [msg];
               usage_logs := usage_logs w |}).

(** [authentication.log_usage(email, count)] *)
Definition log_usage (email : pyvalue) (count : nat) : M unit :=
  fun w =>
    (Ok tt, {| session := session w; ai_calls := ai_calls w;
               st_errors := st_errors w;
               usage_logs := usage_logs w ++ [(email, count)] |}).

(** [for x in l: body x] *)
Fixpoint for_each {A} (l : list A) (body : A -> M unit) : M unit :=
  match l with
  | [] => mret tt
  | x :: l' => body x;; for_each l' body
  end.

(** [d[key] = value] and [d.get(key, dflt)] on the dict of resume texts. *)
Fixpoint dict_set (key : pyvalue) (value : string)
    (d : list (pyvalue * string)) : list (pyvalue * string) :=
  match d with
  | [] => [(key, value)]
  | (k, v) :: d' =>
      if py_eq k key then (k, value) :: d' else (k, v) :: dict_set key value d'
  end.

Fixpoint dict_get (key : pyvalue) (dflt : string)
    (d : list (pyvalue * string)) : string :=
  match d with
  | [] => dflt
  | (k, v) :: d' => if py_eq k key then v else dict_get key dflt d'
  end.

Definition unhashable (key : pyvalue) : exn :=
  Exn TypeError ("unhashable type: '" +:+ type_name key +:+ "'").

(** ** [sorted]

    [sorted(l, key=key, reverse=reverse)] is a stable sort on the keys;
    with [reverse] it sorts the reversed list and reverses the outcome. *)

Fixpoint insert_by {A} (key : A -> Z) (x : A) (l : list A) : list A :=
  match l with
  | [] => [x]
  | y :: l' => if key x <=? key y then x :: l else y :: insert_by key x l'
  end.

Fixpoint stable_sort {A} (key : A -> Z) (l : list A) : list A :=
  match l with
  | [] => []
  | x :: l' => insert_by key x (stable_sort key l')
  end.

Definition sorted {A} (l : list A) (key : A -> Z) (descending : bool)
  : list A :=
  if descending then reverse (stable_sort key (reverse l))
  else stable_sort key l.

(** ** Widgets *)

(** What the user does in one run of the dashboard. *)
Record ui_input : Type := {
  jd_text : string;
  upload_files : list uploaded_file;
  evaluate_clicked : bool;
  selectbox_pick : option nat;
  create_qa_clicked : bool }.

(** [st.button(label, disabled=disabled)] *)
Definition button (clicked disabled : bool) : bool := clicked && negb disabled.

(** [st.selectbox(label, options, index=index)]: the option the user
    picked, the one at [index] otherwise. *)
Definition selectbox (options : list pyvalue) (index : nat)
    (pick : option nat) : pyvalue :=
  match pick ≫= (fun i => options !! i) with
  | Some v => v
  | None => default VNone (options !! index)
  end.

(** ** resume_analysis.py *)

Definition evaluation_tuple : Type :=
  Z * pyvalue * pyvalue * pyvalue * pyvalue * pyvalue.

Definition evaluation_prompt (job_desc resume_content : string) : string :=
  join newline
    [ "";
      "You are a recruitment expert responsible for assessing candidate qualifications.";
      "Focus on key competencies mentioned in both the job description and resume.";
      "";
      "### Job Description:";
      job_desc;
      "";
      "### Candidate Resume:";
      resume_content;
      "";
      "**Evaluation Breakdown (Total out of 100):**";
      "1. Core Technical Skills (60%):";
      "   - Specific project details (45%)";
      "   - General technical knowledge (15%)";
      "2. Professional Experience (10%)";
      "3. Educational Background (20%)";
      "4. Geographic Relevance (5%)";
      "5. Additional Certifications (5%)";
      "";
      "**Result:**";
      "- " +:+ quoted "Match: Yes" +:+ " for scores 70 or above.";
      "- " +:+ quoted "Match: No" +:+ " for scores below 70.";
      "";
      "Provide the result in the JSON format:";
      "{";
      "  " +:+ quoted "Candidate Name" +:+ ": " +:+ quoted "Candidate Name" +:+ ",";
      "  " +:+ quoted "Email" +:+ ": " +:+ quoted "Email Address" +:+ ",";
      "  " +:+ quoted "Score" +:+ ": NumericScore,";
      "  " +:+ quoted "Match" +:+ ": " +:+ quoted "Yes/No" +:+ ",";
      "  " +:+ quoted "Skills Found" +:+ ": [" +:+ quoted "List" +:+ ", "
        +:+ quoted "of" +:+ ", " +:+ quoted "skills" +:+ "],";
      "  " +:+ quoted "Rationale" +:+ ": " +:+ quoted "Short explanation";
      "}";
      "" ].

Definition qa_prompt (job_desc resume_content : string) : string :=
  join newline
    [ "";
      "You are an AI consultant in recruitment. Generate 10 concise technical interview questions with model answers based on the information provided.";
      "";
      "### Job Description:";
      job_desc;
      "";
      "### Candidate Resume:";
      resume_content;
      "";
      "Instructions:";
      "- The questions should target essential technical areas from the job description.";
      "- Answers should be short and informative.";
      "";
      "Return a JSON output with the structure:";
      "{";
      "  " +:+ quoted "questions" +:+ ": [";
      "    {" +:+ quoted "question" +:+ ": " +:+ quoted "Question 1" +:+ ", "
        +:+ quoted "answer" +:+ ": " +:+ quoted "Answer 1" +:+ "},";
      "    ...";
      "  ]";
      "}";
      "" ].

Definition evaluation_request (job_desc resume_content : string)
  : ai_request :=
  {| model := "gpt-4o-mini-2024-07-18";
     system_content := "You are a top-tier recruitment evaluation assistant.";
     user_content := evaluation_prompt job_desc resume_content;
     max_tokens := 1000;
     temperature := 0;
     response_format := "json_object" |}.

Definition qa_request (job_desc resume_content : string) : ai_request :=
  {| model := "gpt-4o-mini-2024-07-18";
     system_content := "You are an experienced recruitment consultant.";
     user_content := qa_prompt job_desc resume_content;
     max_tokens := 1500;
     temperature := 7 # 10;
     response_format := "json_object" |}.

(** The dict [{"error": message}]. *)
Definition error_dict (message : string) : pyvalue :=
  VDict {[ "error" := VStr message ]}.

(** What [parse_evaluation] returns when it finds no evaluation. *)
Definition no_evaluation (rationale : string) : evaluation_tuple :=
  (0, VStr "No", VList [], VStr rationale, VStr "Unknown", VStr "N/A").

(** One line pair of the interview Q&A text, for the entry at [idx]. *)
Definition qa_lines (str_of : pyvalue -> string) (idx : nat)
    (question answer : pyvalue) : list string :=
  [ "**" +:+ pretty (idx + 1)%nat +:+ ". " +:+ str_of question +:+ "**";
    "Suggested Answer: " +:+ str_of answer +:+ newline ].

Section ResumeAnalysis.
Context (ext : externals).

(** [ai_instance.chat.completions.create(...)] and the read of the
    reply's content. *)
Definition ai_call (req : ai_request) : M (option string) :=
  fun w =>
    (chat_completion ext (ai_calls w) req,
     {| session := session w; ai_calls := ai_calls w ++ [req];
        st_errors := st_errors w; usage_logs := usage_logs w |}).

Definition perform_resume_evaluation (job_desc resume_content : string)
  : M pyvalue :=
  if negb (truthy (VStr (strip resume_content))) then
    mret (error_dict "The resume content is empty.")
  else
    let prompt_text := evaluation_request job_desc resume_content in
    try_exceptM
      (response_str ← ai_call prompt_text;
       lift (json_loads_content ext response_str))
      (fun e => mret (error_dict ("AI evaluation failed: " +:+ exn_msg e))).

Definition parse_evaluation (evaluation_data : pyvalue)
  : result evaluation_tuple :=
  try_except
    (has_error ← py_contains "error" evaluation_data;
     if (has_error : bool) then Ok (no_evaluation "")
     else
       score_v ← py_get evaluation_data "Score" (VInt 0);
       score ← py_int ext score_v;
       match_status ← py_get evaluation_data "Match" (VStr "No");
       skills ← py_get evaluation_data "Skills Found" (VList []);
       rationale ← py_get evaluation_data "Rationale"
                     (VStr "No explanation provided.");
       candidate_name ← py_get evaluation_data "Candidate Name"
                          (VStr "Unknown");
       email ← py_get evaluation_data "Email" (VStr "N/A");
       Ok (score, match_status, skills, rationale, candidate_name, email))
    (fun parse_err =>
       Ok (no_evaluation ("Error during parsing: " +:+ exn_msg parse_err))).

(** The loop over [enumerate(questions)] of [generate_interview_qa]. *)
Fixpoint qa_out_lines (idx : nat) (questions : list pyvalue)
  : result (list string) :=
  match questions with
  | [] => Ok []
  | entry :: rest =>
      question ← py_getitem entry "question";
      answer ← py_getitem entry "answer";
      more ← qa_out_lines (S idx) rest;
      Ok (qa_lines (py_str ext) idx question answer ++ more)
  end.

Definition generate_interview_qa (job_desc resume_content : string)
  : M string :=
  try_exceptM
    (content ← ai_call (qa_request job_desc resume_content);
     qa_json ← lift (json_loads_content ext content);
     questions ← lift (py_get qa_json "questions" (VList []));
     entries ← lift (py_iter questions);
     out_lines ← lift (qa_out_lines 0 entries);
     mret (join newline out_lines))
    (fun ex => mret ("Error generating interview Q&A: " +:+ exn_msg ex)).

End ResumeAnalysis.

(** [l.index(x)] *)
Definition list_index (l : list pyvalue) (x : pyvalue) : result nat :=
  match index_from x l 0 with
  | Some i => Ok i
  | None => Raise (Exn ValueError "list.index(x): x not in list")
  end.

(** The [index] argument of the candidate selectbox. *)
Definition selection_index (candidate_names : list pyvalue)
    (selected_candidate : pyvalue) : result nat :=
  if truthy selected_candidate then list_index candidate_names selected_candidate
  else Ok 0%nat.

(** [if key not in st.session_state: st.session_state.key = ...], for the
    four stores of the dashboard. *)
Definition init_stores (s : session_state) : session_state :=
  let s := match results s with None => set_results [] s | Some _ => s end in
  let s :=
    match resume_texts s with None => set_resume_texts [] s | Some _ => s end in
  let s := match qa_output s with None => set_qa_output VNone s | Some _ => s end in
  match selected_candidate s with
  | None => set_selected_candidate VNone s
  | Some _ => s
  end.

Definition init_qa_data (s : session_state) : session_state :=
  match qa_data s with None => set_qa_data (VList []) s | Some _ => s end.

Definition nonempty {A} (l : list A) : bool :=
  match l with [] => false | _ => true end.

Section Dashboard.
Context (ext : externals).

(** The body of the [try] in the batch loop. *)
Definition process_resume_body (jd_text : string) (resume : uploaded_file)
  : M unit :=
  text_content ← lift (fetch_text_content ext resume);
  eval_output ← perform_resume_evaluation ext jd_text text_content;
  '(score, match_status, skills_list, rationale, candidate_name, email_addr)
    ← lift (parse_evaluation ext eval_output);
  rows ← session_attr results "results";
  modify_session
    (set_results
       (rows ++ [ {| Candidate_Name := candidate_name;
                     Email := email_addr;
                     Score := score;
                     Match := match_status;
                     Skills_Found := skills_list;
                     Rationale := rationale |} ]));;
  texts ← session_attr resume_texts "resume_texts";
  if hashable candidate_name then
    modify_session (set_resume_texts (dict_set candidate_name text_content texts))
  else lift (Raise (unhashable candidate_name)).

(** One turn of the batch loop: the [try] and its [except]. *)
Definition process_resume (jd_text : string) (resume : uploaded_file)
  : M unit :=
  try_exceptM
    (process_resume_body jd_text resume)
    (fun err =>
       st_error ("Failed to process " +:+ name resume +:+ ": "
                 +:+ exn_msg err)).

(** [for resume in upload_files: ...] *)
Definition process_batch (jd_text : string)
    (upload_files : list uploaded_file) : M unit :=
  for_each upload_files (process_resume jd_text).

(** [if analyze_trigger: ...] *)
Definition evaluate_resumes (jd_text : string)
    (upload_files : list uploaded_file) : M unit :=
  modify_session (set_results []);;
  modify_session (set_resume_texts []);;
  process_batch jd_text upload_files;;
  rows ← session_attr results "results";
  if nonempty rows then
    info ← session_attr user_info "user_info";
    email ← lift (py_getitem info "email");
    log_usage email (length upload_files)
  else mret tt.

(** [if st.session_state.results: ...]: the ranking and the Q&A. *)
Definition show_candidates (ui : ui_input) : M unit :=
  rows ← session_attr results "results";
  if nonempty rows then
    let sorted_candidates := sorted rows Score true in
    let candidate_names := map Candidate_Name sorted_candidates in
    previous ← session_attr selected_candidate "selected_candidate";
    index ← lift (selection_index candidate_names previous);
    let selected := selectbox candidate_names index (selectbox_pick ui) in
    modify_session (set_selected_candidate selected);;
    modify_session init_qa_data;;
    if truthy selected then
      texts ← session_attr resume_texts "resume_texts";
      candidate_resume ←
        (if hashable selected then mret (dict_get selected "" texts)
         else lift (Raise (unhashable selected)));
      if negb (String.eqb candidate_resume "") then
        if button (create_qa_clicked ui) false then
          qa ← generate_interview_qa ext (jd_text ui) candidate_resume;
          modify_session (set_qa_data (VStr qa))
        else mret tt
      else mret tt
    else mret tt
  else mret tt.

Definition display_resume_dashboard (ui : ui_input) : M unit :=
  let analyze_trigger :=
    button (evaluate_clicked ui)
      (negb (truthy (VStr (jd_text ui)) && nonempty (upload_files ui))) in
  modify_session init_stores;;
  (if analyze_trigger then evaluate_resumes (jd_text ui) (upload_files ui)
   else mret tt);;
  show_candidates ui.

End Dashboard.

(** ** Test doubles

    A scripted AI service (the n-th call gets the n-th reply), a JSON
    decoder given by a table of the texts it knows, and plain-ASCII
    stand-ins for the document readers and the interpreter's
    conversions. *)

Definition ascii_text (bytes : list byte) : result string :=
  if forallb (fun b => (Byte.to_N b <? 128)%N) bytes then
    Ok (string_of_list_ascii (map ascii_of_byte bytes))
  else
    Raise (Exn (LibraryError "UnicodeDecodeError")
             "'utf-8' codec can't decode byte: invalid start byte").

Fixpoint decimal_value (s : string) (acc : Z) : option Z :=
  match s with
  | EmptyString => Some acc
  | String c s' =>
      let n := Z.of_N (N_of_ascii c) in
      if (48 <=? n) && (n <=? 57) then decimal_value s' (10 * acc + (n - 48))
      else None
  end.

Definition decimal_int (s : string) : result Z :=
  let invalid :=
    Raise (Exn ValueError
             ("invalid literal for int() with base 10: '" +:+ s +:+ "'")) in
  match strip s with
  | EmptyString => invalid
  | String "-" (String c t) =>
      match decimal_value (String c t) 0 with
      | Some z => Ok (- z)
      | None => invalid
      end
  | t => match decimal_value t 0 with Some z => Ok z | None => invalid end
  end.

Definition plain_str (x : pyvalue) : string :=
  match x with
  | VNone => "None"
  | VBool b => if b then "True" else "False"
  | VInt z => pretty z
  | VStr s => s
  | _ => "<" +:+ type_name x +:+ ">"
  end.

Fixpoint table_lookup (text : string) (table : list (string * pyvalue))
  : result pyvalue :=
  match table with
  | [] =>
      Raise (Exn (LibraryError "JSONDecodeError")
               "Expecting value: line 1 column 1 (char 0)")
  | (t, v) :: table' =>
      if String.eqb t text then Ok v else table_lookup text table'
  end.

Definition scripted_ai (replies : list (result (option string)))
    (history : list ai_request) (req : ai_request) : result (option string) :=
  match replies !! length history with
  | Some r => r
  | None => Raise (Exn (LibraryError "APIConnectionError") "Connection error.")
  end.

Definition mock_externals (replies : list (result (option string)))
    (table : list (string * pyvalue)) : externals :=
  {| chat_completion := scripted_ai replies;
     json_loads := fun text => table_lookup text table;
     pdf_pages := fun bytes => text ← ascii_text bytes; mret [Some text];
     docx_paragraphs := fun bytes => text ← ascii_text bytes; mret [text];
     utf8_decode := ascii_text;
     int_of_str := decimal_int;
     str_of := plain_str |}.

Definition bytes_of (s : string) : list byte :=
  map byte_of_ascii (list_ascii_of_string s).

(** The reply of the spec's example, as text and as the value it decodes
    to. *)
Definition jane_reply : string := "jane.json".

Definition jane_value : pyvalue :=
  VDict (<[ "Candidate Name" := VStr "Jane Doe" ]>
        (<[ "Email" := VStr "jane@x.com" ]>
        (<[ "Score" := VInt 85 ]>
        (<[ "Match" := VStr "Yes" ]>
        (<[ "Skills Found" := VList [VStr "Python"; VStr "SQL"] ]>
        (<[ "Rationale" := VStr "Strong fit" ]> ∅)))))).

Definition empty_world (s : session_state) : world :=
  {| session := s; ai_calls := []; st_errors := []; usage_logs := [] |}.

(** Fixtures of the examples. *)

Definition txt_file (file_name text : string) : uploaded_file :=
  {| name := file_name; type := "text/plain"; data := bytes_of text |}.

Definition png_file : uploaded_file :=
  {| name := "photo.png"; type := "image/png"; data := bytes_of "PNG" |}.

Definition supported_types : list string :=
  [ "application/pdf";
    "application/vnd.openxmlformats-officedocument.wordprocessingml.document";
    "application/msword";
    "text/plain" ].

(** A service that answers every script line with the spec's example. *)
Definition jane_service (calls : nat) : externals :=
  mock_externals (replicate calls (Ok (Some jane_reply)))
    [(jane_reply, jane_value)].

Definition logged_in_world : world :=
  empty_world
    (session_after_login
       (<[ "name" := VStr "Ann" ]>
       (<[ "email" := VStr "ann@companyemail.com" ]>
       (<[ "role" := VStr "user" ]> ∅)))).

(** [s] is empty or holds white space only. *)
Definition blank (s : string) : bool :=
  forallb is_space (list_ascii_of_string s).

(** The message of the batch loop's [except] clause. *)
Definition failure_message (resume : uploaded_file) (e : exn) : string :=
  "Failed to process " +:+ name resume +:+ ": " +:+ exn_msg e.

(** The world once [st.error] has reported that [resume] failed with
    [e]. *)
Definition report_failure (resume : uploaded_file) (e : exn) (w : world)
  : world :=
  {| session := session w; ai_calls := ai_calls w;
     st_errors := st_errors w ++ [failure_message resume e];
     usage_logs := usage_logs w |}.

(** The rows of [st.session_state.results]. *)
Definition rows_of (w : world) : list candidate_entry :=
  default [] (results (session w)).

Definition unsupported_file_type : exn :=
  Exn ValueError "Unsupported file type. Provide PDF, DOCX, or TXT only.".

(** One run of the dashboard and the world it leaves. *)
Definition run (ext : externals) (ui : ui_input) (w : world) : world :=
  (display_resume_dashboard ext ui w).2.

(** The user pastes a job description, uploads the files and clicks
    "Evaluate Resumes". *)
Definition evaluate_click (files : list uploaded_file) : ui_input :=
  {| jd_text := "Python developer"; upload_files := files;
     evaluate_clicked := true; selectbox_pick := None;
     create_qa_clicked := false |}.

(** The script runs again with the same inputs and no click. *)
Definition rerun (files : list uploaded_file) : ui_input :=
  {| jd_text := "Python developer"; upload_files := files;
     evaluate_clicked := false; selectbox_pick := None;
     create_qa_clicked := false |}.

Definition candidate_fields (candidate score : pyvalue)
  : gmap string pyvalue :=
  <[ "Candidate Name" := candidate ]>
  (<[ "Email" := VStr "c@x.com" ]>
  (<[ "Score" := score ]>
  (<[ "Match" := VStr "Yes" ]>
  (<[ "Skills Found" := VList [VStr "Python"] ]>
  (<[ "Rationale" := VStr "Fit" ]> ∅))))).

Definition candidate_value (candidate score : pyvalue) : pyvalue :=
  VDict (candidate_fields candidate score).

(** A service that scores Alice for its first request and Carol for its
    second. *)
Definition alice_then_carol : externals :=
  mock_externals [Ok (Some "alice.json"); Ok (Some "carol.json")]
    [ ("alice.json", candidate_value (VStr "Alice Smith") (VInt 80));
      ("carol.json", candidate_value (VStr "Carol Jones") (VInt 60)) ].

Definition alice_cv : uploaded_file := txt_file "alice.txt" "Alice Smith".
Definition carol_cv : uploaded_file := txt_file "carol.txt" "Carol Jones".

(** A result row with a name and a score. *)
Definition scored (candidate : string) (score : Z) : candidate_entry :=
  {| Candidate_Name := VStr candidate; Email := VStr "N/A"; Score := score;
     Match := VStr (if 70 <=? score then "Yes" else "No");
     Skills_Found := VList []; Rationale := VStr "" |}.

(** The lines [generate_interview_qa] writes for question and answer
    pairs, numbered from [idx + 1]. *)
Fixpoint qa_text_lines (str_of : pyvalue -> string) (idx : nat)
    (pairs : list (pyvalue * pyvalue)) : list string :=
  match pairs with
  | [] => []
  | (question, answer) :: rest =>
      qa_lines str_of idx question answer ++ qa_text_lines str_of (S idx) rest
  end.

Definition qa_entry (question answer : string) : pyvalue :=
  VDict (<[ "question" := VStr question ]>
        (<[ "answer" := VStr answer ]> ∅)).

Definition qa_fields : gmap string pyvalue :=
  <[ "questions" :=
       VList [ qa_entry "What is a list?" "An ordered sequence.";
               qa_entry "What is a dict?" "A mapping." ] ]> ∅.

Definition qa_value : pyvalue := VDict qa_fields.

(** A service that is down. *)
Definition no_service : externals := mock_externals [] [].

(** A service whose first reply is a well-formed Q&A object. *)
Definition qa_service : externals :=
  mock_externals [Ok (Some "qa.json")] [("qa.json", qa_value)].

(** ** [re.search] for patterns of single characters and [class+]

    A pattern is a sequence of atoms: one character of a class, or one or
    more of them, taken greedily and given back one at a time when the
    rest of the pattern fails. *)

Inductive atom : Type :=
| One (class : ascii -> bool)
| Many1 (class : ascii -> bool).

(** [class*] followed by the rest of the pattern: as many characters of
    the class as possible, one fewer each time the rest fails. *)
Fixpoint many_then (class : ascii -> bool) (rest : string -> option string)
    (s : string) : option string :=
  match s with
  | String c s' =>
      if class c then
        match many_then class rest s' with
        | Some m => Some (String c m)
        | None => rest s
        end
      else rest s
  | EmptyString => rest s
  end.

(** The match of [pattern] that starts at the head of [s], if any. *)
Fixpoint match_here (pattern : list atom) (s : string) : option string :=
  match pattern with
  | [] => Some ""
  | One class :: pattern' =>
      match s with
      | String c s' =>
          if class c then String c <$> match_here pattern' s' else None
      | EmptyString => None
      end
  | Many1 class :: pattern' =>
      match s with
      | String c s' =>
          if class c then
            String c <$> many_then class (match_here pattern') s'
          else None
      | EmptyString => None
      end
  end.

(** [re.search(pattern, s).group(0)]: the match at the first position
    that has one. *)
Fixpoint re_search (pattern : list atom) (s : string) : option string :=
  match match_here pattern s with
  | Some m => Some m
  | None =>
      match s with
      | String _ s' => re_search pattern s'
      | EmptyString => None
      end
  end.

(** The strings a pattern matches. *)
Inductive matches : list atom -> string -> Prop :=
| matches_nil : matches [] ""
| matches_one class c pattern m :
    class c = true -> matches pattern m ->
    matches (One class :: pattern) (String c m)
| matches_many class c cs pattern m :
    class c = true ->
    forallb class (list_ascii_of_string cs) = true ->
    matches pattern m ->
    matches (Many1 class :: pattern) (String c (cs +:+ m)).

(** ** utils.py: contact details *)

Definition is_alnum (c : ascii) : bool :=
  let n := N_of_ascii c in
  ((48 <=? n) && (n <=? 57) || (65 <=? n) && (n <=? 90)
   || (97 <=? n) && (n <=? 122))%N.

Definition is_char (d c : ascii) : bool := Ascii.eqb c d.

(** [[a-zA-Z0-9_.+-]] *)
Definition email_local_char (c : ascii) : bool :=
  is_alnum c || is_char "_" c || is_char "." c || is_char "+" c
  || is_char "-" c.

(** [[a-zA-Z0-9-]] *)
Definition email_domain_char (c : ascii) : bool :=
  is_alnum c || is_char "-" c.

(** [[a-zA-Z0-9-.]] *)
Definition email_suffix_char (c : ascii) : bool :=
  is_alnum c || is_char "-" c || is_char "." c.

(** [[a-zA-Z0-9_.+-]+@[a-zA-Z0-9-]+\.[a-zA-Z0-9-.]+] *)
Definition email_pattern : list atom :=
  [ Many1 email_local_char; One (is_char "@"); Many1 email_domain_char;
    One (is_char "."); Many1 email_suffix_char ].

(** [s.split(sep)] for a separator of one character. *)
Fixpoint split_on (sep : ascii) (s : string) : list string :=
  match s with
  | EmptyString => [""]
  | String c s' =>
      if Ascii.eqb c sep then "" :: split_on sep s'
      else
        match split_on sep s' with
        | first :: rest => String c first :: rest
        | [] => [String c ""]
        end
  end.

Definition retrieve_contact_details (text : string)
  : string * option string :=
  let email_match := re_search email_pattern text in
  let first_line := default "" (head (split_on (ascii_of_nat 10) text)) in
  (strip first_line, email_match).

(** [k] never stops a match before a character of [class]. *)
Definition stops_before (class : ascii -> bool)
    (k : string -> option string) : Prop :=
  forall s m c post,
    k s = Some m -> s = m +:+ String c post -> class c = false.

(** Fixtures of the further examples. *)

Definition contact_text : string :=
  "  Jane Doe " +:+ newline +:+ "Contact: jane.doe@x.com. Phone".

(** The logged-in world once the dashboard has set up its stores. *)
Definition ready_world : world :=
  (modify_session init_stores logged_in_world).2.

(** The same with rows and resume texts in the stores. *)
Definition world_with (rows : list candidate_entry)
    (texts : list (pyvalue * string)) : world :=
  (modify_session (fun s => set_resume_texts texts (set_results rows s))
     ready_world).2.

Definition blank_file (file_name media_type : string) : uploaded_file :=
  {| name := file_name; type := media_type; data := bytes_of "   " |}.

(** A service whose reply is no JSON. *)
Definition garbled_service : externals :=
  mock_externals [Ok (Some "Sorry, I cannot help.")] [].

(** A service that names the candidate by a list. *)
Definition list_name_service : externals :=
  mock_externals [Ok (Some "list.json")]
    [ ("list.json",
       candidate_value (VList [VStr "Jane"; VStr "Doe"]) (VInt 70)) ].

(** A service whose Q&A reply has no "questions". *)
Definition empty_qa_service : externals :=
  mock_externals [Ok (Some "empty.json")] [("empty.json", VDict ∅)].

Definition question_only : gmap string pyvalue :=
  <[ "question" := VStr "What is a dict?" ]> ∅.

Definition qa_half_fields : gmap string pyvalue :=
  <[ "questions" :=
       VList [ qa_entry "What is a list?" "An ordered sequence.";
               VDict question_only ] ]> ∅.

(** A service whose second question has no answer. *)
Definition qa_half_service : externals :=
  mock_externals [Ok (Some "half.json")] [("half.json", VDict qa_half_fields)].

(** The user clicks "Create Interview Q&A". *)
Definition qa_click : ui_input :=
  {| jd_text := "Python developer"; upload_files := [];
     evaluate_clicked := false; selectbox_pick := None;
     create_qa_clicked := true |}.

Definition unknown_row : candidate_entry :=
  {| Candidate_Name := VStr "Unknown"; Email := VStr "N/A"; Score := 0;
     Match := VStr "No"; Skills_Found := VList []; Rationale := VStr "" |}.

(** A text file that is not UTF-8. *)
Definition binary_file : uploaded_file :=
  {| name := "cv.txt"; type := "text/plain"; data := [Byte.xff] |}.

(** Ann's row and text in the stores. *)
Definition ann_world : world :=
  world_with [scored "Ann" 40] [(VStr "Ann", "Ann Lee, Python")].

(** The evaluation requests a batch leads to: one for each document
    whose text is extracted and is not blank, in upload order. *)
Definition evaluation_requests (ext : externals) (jd_text : string)
    (upload_files : list uploaded_file) : list ai_request :=
  flat_map
    (fun resume =>
       match fetch_text_content ext resume with
       | Ok text =>
           if blank text then [] else [evaluation_request jd_text text]
       | Raise _ => []
       end)
    upload_files.

(** The world once the request for [text] was sent and failed: the row
    "Unknown" is appended, the text is kept under that name, nothing is
    reported. *)
Definition unevaluated (jd_text text : string) (w : world) : world :=
  {| session :=
       set_resume_texts
         (dict_set (VStr "Unknown") text
            (default [] (resume_texts (session w))))
         (set_results (rows_of w ++ [unknown_row]) (session w));
     ai_calls := ai_calls w ++ [evaluation_request jd_text text];
     st_errors := st_errors w;
     usage_logs := usage_logs w |}.

(** What one document of a batch leaves behind: a row, a message of
    [st.error], or both.  A document whose extraction raises leaves the
    message of that failure and no row; any other leaves a row, and the
    message "unhashable type" as well when the row's name cannot be a key
    of the resume texts. *)
Definition document_outcome : Type := option candidate_entry * option string.

Definition outcome_of (ext : externals) (resume : uploaded_file)
    (o : document_outcome) : Prop :=
  match fetch_text_content ext resume with
  | Raise e => o = (None, Some (failure_message resume e))
  | Ok _ =>
      exists row,
        o = (Some row,
             if hashable (Candidate_Name row) then None
             else Some (failure_message resume
                          (unhashable (Candidate_Name row))))
  end.

(** A service that is down for the first request and answers the
    second. *)
Definition down_then_jane : externals :=
  mock_externals
    [ Raise (Exn (LibraryError "APIConnectionError") "Connection error.");
      Ok (Some jane_reply) ]
    [(jane_reply, jane_value)].

(** * Properties *)

(** ** Strings *)

Lemma lstrip_blank (s : string) : blank s = true -> lstrip s = "".
Proof.
  unfold blank. induction s as [|c s IH]; simpl; [reflexivity|].
  intros H. apply andb_true_iff in H as [Hc Hs]. rewrite Hc. auto.
Qed.

Lemma strip_blank (s : string) : blank s = true -> strip s = "".
Proof. intros H. unfold strip. rewrite lstrip_blank by assumption. reflexivity. Qed.

Lemma rstrip_empty_blank (s : string) : rstrip s = "" -> blank s = true.
Proof.
  unfold blank. induction s as [|c s IH]; simpl; [reflexivity|].
  destruct (rstrip s) eqn:E; [|discriminate].
  destruct (is_space c) eqn:Hc; [|discriminate].
  intros _. simpl. auto.
Qed.

Lemma lstrip_blank_iff (s : string) : blank (lstrip s) = blank s.
Proof.
  unfold blank. induction s as [|c s IH]; simpl; [reflexivity|].
  destruct (is_space c) eqn:Hc; simpl; [assumption|].
  rewrite Hc. reflexivity.
Qed.

(** [not s.strip()] holds exactly of the blank strings. *)
Lemma strip_empty_iff (s : string) : strip s = "" <-> blank s = true.
Proof.
  split; [|apply strip_blank].
  unfold strip. intros H. apply rstrip_empty_blank in H.
  rewrite lstrip_blank_iff in H. assumption.
Qed.

Section ParseEvaluation.
Context (ext : externals).

(** C3: [parse_evaluation] is total: on every value, an evaluation
    dict, an error dict or anything else [json.loads] can give, it
    returns its tuple of six fields and raises nothing. *)
Theorem parse_evaluation_total (evaluation_data : pyvalue) :
  exists score match_status skills rationale candidate_name email,
    parse_evaluation ext evaluation_data
    = Ok (score, match_status, skills, rationale, candidate_name, email).
Proof.
  unfold parse_evaluation, try_except.
  match goal with |- context [match ?b with Ok _ => _ | Raise _ => _ end] =>
    destruct b as [[[[[[sc ma] sk] ra] cn] em]|e] end.
  - by exists sc, ma, sk, ra, cn, em.
  - unfold no_evaluation. eauto 10.
Qed.

(** C4 (amended): for every dict that has the key "error",
    [parse_evaluation] returns score 0, match "No", no skills, the empty
    rationale, the name "Unknown" and the email "N/A"; the message under
    "error" is not carried over. *)
Theorem parse_evaluation_error_dict (d : gmap string pyvalue)
    (message : pyvalue) :
  parse_evaluation ext (VDict (<[ "error" := message ]> d))
  = Ok (0, VStr "No", VList [], VStr "", VStr "Unknown", VStr "N/A").
Proof.
  unfold parse_evaluation, try_except. simpl.
  rewrite lookup_insert_eq. reflexivity.
Qed.

(** C10: for a dict without the key "error" whose "Score" [int] cannot
    convert, [parse_evaluation] drops the whole record: score 0, match
    "No", no skills, name "Unknown", email "N/A", and the rationale
    "Error during parsing: " followed by the conversion error, whatever
    the other keys hold. *)
Theorem parse_evaluation_bad_score (d : gmap string pyvalue) (e : exn) :
  d !! "error" = None ->
  py_int ext (default (VInt 0) (d !! "Score")) = Raise e ->
  parse_evaluation ext (VDict d)
  = Ok (0, VStr "No", VList [],
        VStr ("Error during parsing: " +:+ exn_msg e),
        VStr "Unknown", VStr "N/A").
Proof.
  intros Herr Hint. unfold parse_evaluation, try_except. simpl.
  rewrite Herr. simpl.
  unfold mbind, result_bind, rbind. rewrite Hint. reflexivity.
Qed.

End ParseEvaluation.

Section Evaluation.
Context (ext : externals).

(** A resume of white space only is answered without the service. *)
Lemma perform_resume_evaluation_blank (job_desc resume_content : string)
    (w : world) :
  blank resume_content = true ->
  perform_resume_evaluation ext job_desc resume_content w
  = (Ok (error_dict "The resume content is empty."), w).
Proof.
  intros H. unfold perform_resume_evaluation.
  rewrite (strip_blank _ H). reflexivity.
Qed.

(** Any other resume costs one request, whatever the job description. *)
Lemma perform_resume_evaluation_calls (job_desc resume_content : string)
    (w : world) :
  blank resume_content = false ->
  ai_calls (perform_resume_evaluation ext job_desc resume_content w).2
  = ai_calls w ++ [evaluation_request job_desc resume_content].
Proof.
  intros H. unfold perform_resume_evaluation.
  destruct (strip resume_content) eqn:E.
  - apply strip_empty_iff in E. congruence.
  - simpl. unfold try_exceptM, mbind, M_bind, ai_call, lift. simpl.
    destruct (chat_completion ext _ _) as [content|e]; simpl; [|reflexivity].
    destruct (json_loads_content ext content); reflexivity.
Qed.

(** The evaluation never raises and touches nothing but the list of
    requests. *)
Lemma perform_resume_evaluation_effect (job_desc resume_content : string)
    (w : world) :
  exists v w',
    perform_resume_evaluation ext job_desc resume_content w = (Ok v, w')
    /\ session w' = session w /\ st_errors w' = st_errors w
    /\ usage_logs w' = usage_logs w.
Proof.
  unfold perform_resume_evaluation.
  destruct (negb _).
  - do 2 eexists. split; [reflexivity|]. auto.
  - unfold try_exceptM, mbind, M_bind, ai_call, lift. simpl.
    destruct (chat_completion ext _ _) as [content|e]; simpl.
    + destruct (json_loads_content ext content); simpl;
        do 2 eexists; (split; [reflexivity|]); auto.
    + do 2 eexists. split; [reflexivity|]. auto.
Qed.

(** C2 (amended): for every job description, a resume text that is
    empty or white space only gets the error dict, which
    [parse_evaluation] reads as the zero score, and no request reaches
    the AI service; a resume text that is not blank costs one request
    whatever the job description is, the empty one included. *)
Theorem evaluate_short_circuit (job_desc resume_content : string)
    (w : world) :
  (blank resume_content = true ->
   perform_resume_evaluation ext job_desc resume_content w
   = (Ok (error_dict "The resume content is empty."), w)
   /\ parse_evaluation ext (error_dict "The resume content is empty.")
      = Ok (0, VStr "No", VList [], VStr "", VStr "Unknown", VStr "N/A"))
  /\ (blank resume_content = false ->
      ai_calls (perform_resume_evaluation ext job_desc resume_content w).2
      = ai_calls w ++ [evaluation_request job_desc resume_content]).
Proof.
  split.
  - intros H. split; [by apply perform_resume_evaluation_blank|].
    unfold error_dict. rewrite <- insert_empty.
    unfold parse_evaluation, try_except. simpl.
    rewrite lookup_insert_eq. reflexivity.
  - apply perform_resume_evaluation_calls.
Qed.

Lemma fetch_text_content_unsupported (file_obj : uploaded_file) :
  type file_obj ∉ supported_types ->
  fetch_text_content ext file_obj = Raise unsupported_file_type.
Proof.
  unfold supported_types. intros H.
  repeat (apply not_elem_of_cons in H as [? H]).
  unfold fetch_text_content.
  repeat match goal with
         | Hne : type file_obj <> ?t |- _ =>
             apply String.eqb_neq in Hne; rewrite Hne; clear Hne
         end.
  reflexivity.
Qed.

(** C7 (amended): for every document whose declared media type is none
    of the four supported ones, extraction raises a [ValueError] with the
    fixed message "Unsupported file type. Provide PDF, DOCX, or TXT
    only.", which does not name the media type; the batch loop reports it
    under the document's name and sends no request to the evaluation
    engine for it. *)
Theorem unsupported_type_isolated (jd_text : string)
    (file_obj : uploaded_file) (w : world) :
  type file_obj ∉ supported_types ->
  fetch_text_content ext file_obj
  = Raise (Exn ValueError
             "Unsupported file type. Provide PDF, DOCX, or TXT only.")
  /\ process_resume ext jd_text file_obj w
     = (Ok tt,
        {| session := session w; ai_calls := ai_calls w;
           st_errors :=
             st_errors w
             ++ ["Failed to process " +:+ name file_obj
                 +:+ ": Unsupported file type. Provide PDF, DOCX, or TXT only."];
           usage_logs := usage_logs w |}).
Proof.
  intros H. apply fetch_text_content_unsupported in H.
  split; [exact H|].
  unfold process_resume, try_exceptM, process_resume_body.
  unfold mbind at 1. unfold M_bind, lift. rewrite H. reflexivity.
Qed.

End Evaluation.

Ltac effect_cases :=
  repeat split; simpl;
  solve [ auto | eauto | discriminate | intros [? ?]; discriminate
        | intros ?; discriminate ].

Section Batch.
Context (ext : externals).

Lemma for_each_app {A} (l1 l2 : list A) (body : A -> M unit) (w : world) :
  for_each (l1 ++ l2) body w
  = match for_each l1 body w with
    | (Ok _, w1) => for_each l2 body w1
    | (Raise e, w1) => (Raise e, w1)
    end.
Proof.
  revert w. induction l1 as [|x l1 IH]; intros w; simpl; [reflexivity|].
  unfold mbind, M_bind. destruct (body x w) as [[[]|e] w1]; [apply IH|reflexivity].
Qed.

(** One turn of the loop ends normally: either its body did, or the
    failure is reported under the document's name. *)
Lemma process_resume_run (jd_text : string) (resume : uploaded_file)
    (w : world) :
  process_resume ext jd_text resume w
  = (Ok tt,
     match process_resume_body ext jd_text resume w with
     | (Ok _, w') => w'
     | (Raise e, w') => report_failure resume e w'
     end).
Proof.
  unfold process_resume, try_exceptM.
  destruct (process_resume_body ext jd_text resume w) as [[[]|e] w'];
    reflexivity.
Qed.

Lemma process_batch_cons (jd_text : string) (resume : uploaded_file)
    (files : list uploaded_file) (w : world) :
  process_batch ext jd_text (resume :: files) w
  = process_batch ext jd_text files (process_resume ext jd_text resume w).2.
Proof.
  unfold process_batch. simpl. unfold mbind, M_bind.
  rewrite process_resume_run. reflexivity.
Qed.

Lemma process_batch_ok (jd_text : string) (files : list uploaded_file)
    (w : world) :
  (process_batch ext jd_text files w).1 = Ok tt.
Proof.
  revert w. induction files as [|resume files IH]; intros w; [reflexivity|].
  rewrite process_batch_cons. apply IH.
Qed.

(** What the body of the loop can change: only the session's rows and
    resume texts and the list of requests; a body that ends normally has
    appended one row, any other at most one. *)
Lemma process_resume_body_effect (jd_text : string)
    (resume : uploaded_file) (w : world) (r : result unit) (w' : world) :
  process_resume_body ext jd_text resume w = (r, w') ->
  st_errors w' = st_errors w
  /\ usage_logs w' = usage_logs w
  /\ user_info (session w') = user_info (session w)
  /\ (is_Some (results (session w)) -> is_Some (results (session w')))
  /\ (r = Ok tt -> exists row, rows_of w' = rows_of w ++ [row])
  /\ (rows_of w' = rows_of w
      \/ exists row, rows_of w' = rows_of w ++ [row]).
Proof.
  intros H. unfold process_resume_body in H.
  unfold mbind, M_bind, lift, session_attr, modify_session in H.
  destruct (fetch_text_content ext resume) as [text|e];
    [|inversion H; subst; effect_cases].
  destruct (perform_resume_evaluation_effect ext jd_text text w)
    as (v & w1 & Hrun & Hs & He & Hu).
  rewrite Hrun in H.
  unfold rows_of. rewrite <- Hs, <- He, <- Hu.
  destruct (parse_evaluation ext v) as [[[[[[sc ma] sk] ra] cn] em]|e];
    [|inversion H; subst; effect_cases].
  destruct (results (session w1)) as [rows|] eqn:Hrows;
    [|inversion H; subst; rewrite Hrows; effect_cases].
  simpl in H.
  destruct (resume_texts (session w1)) as [texts|];
    [|inversion H; subst; simpl; effect_cases].
  destruct (hashable cn); inversion H; subst; simpl; effect_cases.
Qed.

Lemma process_resume_effect (jd_text : string) (resume : uploaded_file)
    (w : world) :
  let w' := (process_resume ext jd_text resume w).2 in
  usage_logs w' = usage_logs w
  /\ user_info (session w') = user_info (session w)
  /\ (is_Some (results (session w)) -> is_Some (results (session w')))
  /\ ((st_errors w' = st_errors w
       /\ exists row, rows_of w' = rows_of w ++ [row])
      \/ (exists e, st_errors w' = st_errors w ++ [failure_message resume e]
                    /\ (rows_of w' = rows_of w
                        \/ exists row, rows_of w' = rows_of w ++ [row]))).
Proof.
  rewrite process_resume_run. simpl.
  destruct (process_resume_body ext jd_text resume w) as [r w'] eqn:Hbody.
  apply process_resume_body_effect in Hbody
    as (He & Hu & Hi & Hsome & Hok & Hrows).
  destruct r as [[]|e].
  - repeat split; auto.
  - repeat split; auto. right. exists e. unfold report_failure, rows_of.
    simpl. rewrite He. auto.
Qed.

(** Every document of a batch leaves a row or a reported failure under
    its name: none is skipped. *)
Lemma process_batch_accounts (jd_text : string)
    (files : list uploaded_file) (w : world) :
  let w' := (process_batch ext jd_text files w).2 in
  usage_logs w' = usage_logs w
  /\ user_info (session w') = user_info (session w)
  /\ (is_Some (results (session w)) -> is_Some (results (session w')))
  /\ exists reported,
       st_errors w' = st_errors w ++ reported
       /\ Forall (fun m => exists f e, f ∈ files /\ m = failure_message f e)
            reported
       /\ (length (rows_of w) + length files
           <= length (rows_of w') + length reported)%nat.
Proof.
  revert w. induction files as [|resume files IH]; intros w.
  - simpl. repeat split; auto. exists []. rewrite app_nil_r.
    repeat split; auto.
  - rewrite process_batch_cons.
    pose proof (process_resume_effect jd_text resume w) as Hone.
    simpl in Hone.
    set (w1 := (process_resume ext jd_text resume w).2) in *.
    destruct Hone as (Hu1 & Hi1 & Hs1 & Hcase).
    destruct (IH w1) as (Hu & Hi & Hs & reported & Herr & Hall & Hlen).
    simpl. repeat split; [congruence|congruence|auto|].
    assert (Hmono : Forall
              (fun m => exists f e, f ∈ resume :: files
                                    /\ m = failure_message f e) reported).
    { eapply Forall_impl; [exact Hall|].
      intros m (f & e & Hf & ->). exists f, e. split; [|done].
      by apply list_elem_of_further. }
    destruct Hcase as [[He1 [row Hrow]]|(e & He1 & Hrow)].
    + exists reported. rewrite Herr, He1. repeat split; auto.
      rewrite Hrow, length_app in Hlen. simpl in *. lia.
    + exists (failure_message resume e :: reported).
      rewrite Herr, He1, <- app_assoc. repeat split; auto.
      * constructor; [|exact Hmono]. exists resume, e.
        split; [apply list_elem_of_here|done].
      * destruct Hrow as [Hrow|[row Hrow]]; rewrite Hrow in Hlen;
          [|rewrite length_app in Hlen]; simpl in *; lia.
Qed.

End Batch.

Section Usage.
Context (ext : externals).

(** With [user_info] not in the session, [log_usage] is never reached:
    a batch that produced a row ends in an [AttributeError]. *)
Lemma evaluate_resumes_without_user_info (jd_text : string)
    (files : list uploaded_file) (w : world) :
  user_info (session w) = None ->
  let outcome := evaluate_resumes ext jd_text files w in
  usage_logs outcome.2 = usage_logs w
  /\ (rows_of outcome.2 <> [] ->
      exists msg, outcome.1 = Raise (Exn AttributeError msg)).
Proof.
  intros Hinfo.
  destruct (evaluate_resumes ext jd_text files w) as [r w'] eqn:H.
  unfold evaluate_resumes, mbind, M_bind, modify_session in H.
  match type of H with context [process_batch ext jd_text files ?w0] =>
    pose proof (process_batch_ok ext jd_text files w0) as Hok;
    destruct (process_batch_accounts ext jd_text files w0)
      as (Hu & Hi & Hs & _);
    destruct (process_batch ext jd_text files w0) as [r1 w1]
  end.
  simpl in Hok, Hu, Hi, Hs. subst r1. unfold session_attr in H.
  destruct Hs as [rows Hrows]; [by eexists|].
  rewrite Hrows in H. destruct rows as [|row rows]; simpl in H.
  - inversion H; subst. simpl. split; [done|].
    unfold rows_of. rewrite Hrows. done.
  - rewrite Hi, Hinfo in H. inversion H; subst. simpl.
    split; [done|]. eauto.
Qed.

(** With [user_info] in the session and an "email" in it, a batch logs
    its usage exactly when it produced a row, and the count is the
    number of uploaded files. *)
Lemma evaluate_resumes_with_user_info (jd_text : string)
    (files : list uploaded_file) (w : world) (info email : pyvalue) :
  user_info (session w) = Some info ->
  py_getitem info "email" = Ok email ->
  let outcome := evaluate_resumes ext jd_text files w in
  outcome.1 = Ok tt
  /\ usage_logs outcome.2
     = usage_logs w
       ++ (if nonempty (rows_of outcome.2) then [(email, length files)]
           else []).
Proof.
  intros Hinfo Hemail.
  destruct (evaluate_resumes ext jd_text files w) as [r w'] eqn:H.
  unfold evaluate_resumes, mbind, M_bind, modify_session in H.
  match type of H with context [process_batch ext jd_text files ?w0] =>
    pose proof (process_batch_ok ext jd_text files w0) as Hok;
    destruct (process_batch_accounts ext jd_text files w0)
      as (Hu & Hi & Hs & _);
    destruct (process_batch ext jd_text files w0) as [r1 w1]
  end.
  simpl in Hok, Hu, Hi, Hs. subst r1. unfold session_attr in H.
  destruct Hs as [rows Hrows]; [by eexists|].
  rewrite Hrows in H. destruct rows as [|row rows]; simpl in H.
  - inversion H; subst. simpl. unfold rows_of. rewrite Hrows. simpl.
    rewrite app_nil_r. done.
  - rewrite Hi, Hinfo in H. unfold lift in H. rewrite Hemail in H.
    unfold log_usage in H. inversion H; subst. simpl.
    unfold rows_of. simpl. rewrite Hrows. simpl. by rewrite Hu.
Qed.

End Usage.

Section Ranking.
Context {A : Type} (key : A -> Z).

Lemma insert_by_perm (x : A) (l : list A) : insert_by key x l ≡ₚ x :: l.
Proof.
  induction l as [|y l IH]; simpl; [done|].
  destruct (key x <=? key y); [done|].
  rewrite IH. apply Permutation_swap.
Qed.

Lemma stable_sort_perm (l : list A) : stable_sort key l ≡ₚ l.
Proof.
  induction l as [|x l IH]; simpl; [done|].
  by rewrite insert_by_perm, IH.
Qed.

Lemma insert_by_sorted (x : A) (l : list A) :
  StronglySorted (fun a b => key a <= key b) l ->
  StronglySorted (fun a b => key a <= key b) (insert_by key x l).
Proof.
  induction l as [|y l IH]; simpl; intros Hl.
  - repeat constructor.
  - destruct (key x <=? key y) eqn:Hxy.
    + apply Z.leb_le in Hxy. constructor; [done|].
      apply StronglySorted_cons in Hl as [Hy _].
      constructor; [done|].
      eapply Forall_impl; [exact Hy|]. simpl. intros; lia.
    + apply Z.leb_gt in Hxy.
      apply StronglySorted_cons in Hl as [Hy Hl].
      constructor; [by apply IH|].
      rewrite insert_by_perm. constructor; [lia|done].
Qed.

Lemma stable_sort_sorted (l : list A) :
  StronglySorted (fun a b => key a <= key b) (stable_sort key l).
Proof.
  induction l as [|x l IH]; simpl; [constructor|].
  by apply insert_by_sorted.
Qed.

(** Inserting keeps the new element ahead of those of its key. *)
Lemma insert_by_filter (k : Z) (x : A) (l : list A) :
  filter (fun y => key y = k) (insert_by key x l)
  = filter (fun y => key y = k) (x :: l).
Proof.
  induction l as [|y l IH]; simpl; [done|].
  destruct (key x <=? key y) eqn:Hxy; [done|].
  apply Z.leb_gt in Hxy.
  rewrite (filter_cons _ y), IH, !filter_cons.
  repeat case_decide; try done; lia.
Qed.

Lemma stable_sort_filter (k : Z) (l : list A) :
  filter (fun y => key y = k) (stable_sort key l)
  = filter (fun y => key y = k) l.
Proof.
  induction l as [|x l IH]; simpl; [done|].
  by rewrite insert_by_filter, !filter_cons, IH.
Qed.

Lemma StronglySorted_reverse_flip (R : relation A) (l : list A) :
  StronglySorted R l -> StronglySorted (flip R) (reverse l).
Proof.
  induction 1 as [|x l Hl IH Hx]; [constructor|].
  rewrite reverse_cons. apply StronglySorted_app_2; [|done|repeat constructor].
  intros a b Ha Hb. apply list_elem_of_singleton in Hb as ->.
  rewrite elem_of_reverse in Ha. unfold flip.
  rewrite Forall_forall in Hx. auto.
Qed.

(** [sorted(l, key=key, reverse=True)] is a permutation of [l], in
    descending order of the keys, with equal keys in the order of [l]. *)
Lemma sorted_reverse_spec (l : list A) :
  sorted l key true ≡ₚ l
  /\ StronglySorted (fun a b => key b <= key a) (sorted l key true)
  /\ forall k, filter (fun y => key y = k) (sorted l key true)
               = filter (fun y => key y = k) l.
Proof.
  unfold sorted. repeat split.
  - by rewrite reverse_Permutation, stable_sort_perm, reverse_Permutation.
  - apply (StronglySorted_reverse_flip (fun a b => key a <= key b)).
    apply stable_sort_sorted.
  - intros k.
    by rewrite filter_reverse, stable_sort_filter, filter_reverse,
         reverse_involutive.
Qed.

End Ranking.

(** C5: the ranking, [sorted(results, key=Score, reverse=True)], holds
    the same rows in descending order of score, rows of equal score in the
    order they were submitted; so scores 40, 90, 90, 10 come out as the
    second, third, first and fourth row. *)
Theorem rank_descending_stable (rows : list candidate_entry) :
  let ranked := sorted rows Score true in
  ranked ≡ₚ rows
  /\ StronglySorted (fun a b => Score b <= Score a) ranked
  /\ (forall s, filter (fun r => Score r = s) ranked
                = filter (fun r => Score r = s) rows)
  /\ (forall first second third fourth : string,
        sorted [scored first 40; scored second 90; scored third 90;
                scored fourth 10] Score true
        = [scored second 90; scored third 90; scored first 40;
           scored fourth 10]).
Proof.
  simpl. destruct (sorted_reverse_spec Score rows) as (Hp & Hs & Hf).
  repeat split; auto.
Qed.

Section InterviewQA.
Context (ext : externals).

Lemma qa_out_lines_pairs (entries : list pyvalue)
    (pairs : list (pyvalue * pyvalue)) (idx : nat) :
  Forall2 (fun entry qa => py_getitem entry "question" = Ok qa.1
                           /\ py_getitem entry "answer" = Ok qa.2)
          entries pairs ->
  qa_out_lines ext idx entries = Ok (qa_text_lines (py_str ext) idx pairs).
Proof.
  intros H. revert idx.
  induction H as [|entry [q a] entries pairs [Hq Ha] _ IH]; intros idx;
    [reflexivity|].
  simpl in *. unfold mbind, result_bind, rbind. rewrite Hq, Ha.
  specialize (IH (S idx)). unfold mbind, result_bind, rbind in IH.
  by rewrite IH.
Qed.

(** C8 (amended): [generate_interview_qa] returns a string in every
    case and never raises.  When the service replies with an object
    whose "questions" is a list of entries each with a "question" and an
    "answer", the string holds them in the reply's order, numbered from
    1 inside the function: "**i. question**" and "Suggested Answer:
    answer" lines joined by newlines.  When the call or the decoding
    fails, the string is "Error generating interview Q&A: " followed by
    the failure's message.  Both outcomes have the same type. *)
Theorem generate_interview_qa_text (job_desc resume_content : string)
    (w : world) :
  let outcome := (generate_interview_qa ext job_desc resume_content w).1 in
  let reply :=
    chat_completion ext (ai_calls w) (qa_request job_desc resume_content) in
  (exists text, outcome = Ok text)
  /\ (forall content qa_json entries pairs,
        reply = Ok content ->
        json_loads_content ext content = Ok (VDict qa_json) ->
        qa_json !! "questions" = Some (VList entries) ->
        Forall2 (fun entry qa => py_getitem entry "question" = Ok qa.1
                                 /\ py_getitem entry "answer" = Ok qa.2)
                entries pairs ->
        outcome = Ok (join newline (qa_text_lines (py_str ext) 0 pairs)))
  /\ (forall e, reply = Raise e ->
                outcome
                = Ok ("Error generating interview Q&A: " +:+ exn_msg e))
  /\ (forall content e,
        reply = Ok content ->
        json_loads_content ext content = Raise e ->
        outcome = Ok ("Error generating interview Q&A: " +:+ exn_msg e)).
Proof.
  simpl. unfold generate_interview_qa, try_exceptM.
  unfold mbind, M_bind, ai_call, lift, mret, M_ret.
  destruct (chat_completion ext _ _) as [content|e0]; simpl.
  - destruct (json_loads_content ext content) as [qa_json|e1] eqn:Hjson;
      simpl.
    + repeat split.
      * destruct (py_get qa_json "questions" (VList [])) as [qs|]; [|eauto].
        destruct (py_iter qs) as [entries|]; [|eauto].
        destruct (qa_out_lines ext 0 entries); eauto.
      * intros c d entries pairs [= <-] Hd Hq Hall.
        rewrite Hjson in Hd. injection Hd as ->. simpl.
        rewrite Hq. simpl.
        by rewrite (qa_out_lines_pairs _ _ _ Hall).
      * discriminate.
      * intros c e [= <-] He. congruence.
    + repeat split; eauto; try discriminate.
      * intros c d entries pairs [= <-] Hd. congruence.
      * intros c e [= <-] He. congruence.
  - repeat split; eauto; try discriminate.
    by intros e [= ->].
Qed.

End InterviewQA.

(** ** The candidate selection *)

(** With no candidate selected so far, the selectbox opens on the
    top-ranked one. *)
Lemma selection_index_unset (candidate_names : list pyvalue)
    (previous : pyvalue) :
  truthy previous = false ->
  selection_index candidate_names previous = Ok 0%nat.
Proof. intros H. unfold selection_index. by rewrite H. Qed.

(** A selected candidate who is not among the new names makes
    [list.index] raise. *)
Lemma selection_index_stale (candidate_names : list pyvalue)
    (previous : pyvalue) :
  truthy previous = true ->
  index_from previous candidate_names 0 = None ->
  selection_index candidate_names previous
  = Raise (Exn ValueError "list.index(x): x not in list").
Proof.
  intros H Hnone. unfold selection_index, list_index. by rewrite H, Hnone.
Qed.

(** * The properties on concrete runs *)

(** The spec's batch of three: the second document is of an unsupported
    type, the other two are evaluated, one failure is reported. *)
Example batch_of_three :
  let files := [txt_file "a.txt" "Jane Doe"; png_file;
                txt_file "c.txt" "Jane Doe"] in
  let w :=
    (evaluate_resumes (jane_service 3) "Python developer" files
       logged_in_world).2 in
  map Score (rows_of w) = [85; 85]
  /\ st_errors w
     = ["Failed to process photo.png: Unsupported file type. Provide PDF, DOCX, or TXT only."]
  /\ length (ai_calls w) = 2%nat.
Proof. vm_compute. auto. Qed.

(** C1, as stated, fails: the first request finds the service down, and
    nothing is reported for alice.txt; the document leaves the row
    "Unknown" with the empty rationale, and the second one is
    evaluated. *)
Lemma evaluation_failure_not_reported :
  let w :=
    (process_batch down_then_jane "Python developer" [alice_cv; carol_cv]
       ready_world).2 in
  chat_completion down_then_jane []
    (evaluation_request "Python developer" "Alice Smith")
  = Raise (Exn (LibraryError "APIConnectionError") "Connection error.")
  /\ st_errors w = []
  /\ map Candidate_Name (rows_of w) = [VStr "Unknown"; VStr "Jane Doe"]
  /\ map Rationale (rows_of w) = [VStr ""; VStr "Strong fit"]
  /\ length (ai_calls w) = 2%nat.
Proof. vm_compute. repeat split. Qed.

(** The spec's example reply is read field by field. *)
Example parse_evaluation_jane :
  parse_evaluation (jane_service 0) jane_value
  = Ok (85, VStr "Yes", VList [VStr "Python"; VStr "SQL"], VStr "Strong fit",
        VStr "Jane Doe", VStr "jane@x.com").
Proof. vm_compute. reflexivity. Qed.

(** C2, as stated, fails: with the empty job description and a resume
    that is not blank, the request is sent and the service's evaluation
    comes back. *)
Lemma empty_job_description_calls_service :
  let outcome :=
    perform_resume_evaluation (jane_service 1) "" "Jane Doe" logged_in_world in
  outcome.1 = Ok jane_value
  /\ ai_calls outcome.2 = [evaluation_request "" "Jane Doe"]
  /\ parse_evaluation (jane_service 1) jane_value
     <> Ok (0, VStr "No", VList [], VStr "", VStr "Unknown", VStr "N/A").
Proof. vm_compute. repeat split. discriminate. Qed.

(** [evaluate_short_circuit] on a resume of three spaces, and on the empty
    job description with a resume that is not blank. *)
Lemma evaluate_short_circuit_witness :
  (perform_resume_evaluation (jane_service 1) "Python developer" "   "
     logged_in_world
   = (Ok (error_dict "The resume content is empty."), logged_in_world)
   /\ parse_evaluation (jane_service 1)
        (error_dict "The resume content is empty.")
      = Ok (0, VStr "No", VList [], VStr "", VStr "Unknown", VStr "N/A"))
  /\ ai_calls
       (perform_resume_evaluation (jane_service 1) "" "Jane Doe"
          logged_in_world).2
     = ai_calls logged_in_world ++ [evaluation_request "" "Jane Doe"].
Proof.
  split.
  - apply (proj1 (evaluate_short_circuit (jane_service 1) "Python developer"
                    "   " logged_in_world)).
    reflexivity.
  - apply (proj2 (evaluate_short_circuit (jane_service 1) "" "Jane Doe"
                    logged_in_world)).
    reflexivity.
Defined.

(** C4, as stated, fails: for an error dict the email is the string
    "N/A", not null, the match is the string "No", not false, and the
    rationale is empty whatever the message was. *)
Lemma error_dict_email_not_null :
  let outcome :=
    parse_evaluation (jane_service 0)
      (error_dict "AI evaluation failed: Connection error.") in
  outcome
  <> Ok (0, VBool false, VList [],
         VStr "AI evaluation failed: Connection error.", VStr "Unknown", VNone)
  /\ outcome
     <> Ok (0, VBool false, VList [], VStr "", VStr "Unknown", VNone)
  /\ outcome
     = Ok (0, VStr "No", VList [], VStr "", VStr "Unknown", VStr "N/A").
Proof. vm_compute. repeat split; discriminate. Qed.

(** [parse_evaluation_bad_score] on a reply whose "Score" is "high" and
    whose other fields are all there. *)
Lemma parse_evaluation_bad_score_witness :
  parse_evaluation (jane_service 0)
    (VDict (candidate_fields (VStr "Jane Doe") (VStr "high")))
  = Ok (0, VStr "No", VList [],
        VStr ("Error during parsing: "
              +:+ "invalid literal for int() with base 10: 'high'"),
        VStr "Unknown", VStr "N/A").
Proof.
  apply (parse_evaluation_bad_score (jane_service 0)
           (candidate_fields (VStr "Jane Doe") (VStr "high"))
           (Exn ValueError "invalid literal for int() with base 10: 'high'")).
  - reflexivity.
  - reflexivity.
Defined.

(** C7, as stated, fails: the error raised for "image/png" does not hold
    the media type. *)
Lemma unsupported_error_omits_media_type :
  exists e,
    fetch_text_content (jane_service 0) png_file = Raise e
    /\ is_substring (type png_file) (exn_msg e) = false.
Proof. eexists. split; reflexivity. Qed.

(** [unsupported_type_isolated] on a PNG upload. *)
Lemma unsupported_type_isolated_witness :
  fetch_text_content (jane_service 1) png_file
  = Raise (Exn ValueError
             "Unsupported file type. Provide PDF, DOCX, or TXT only.")
  /\ process_resume (jane_service 1) "Python developer" png_file
       logged_in_world
     = (Ok tt,
        {| session := session logged_in_world;
           ai_calls := ai_calls logged_in_world;
           st_errors :=
             st_errors logged_in_world
             ++ ["Failed to process " +:+ name png_file
                 +:+ ": Unsupported file type. Provide PDF, DOCX, or TXT only."];
           usage_logs := usage_logs logged_in_world |}).
Proof.
  apply (unsupported_type_isolated (jane_service 1) "Python developer"
           png_file logged_in_world).
  unfold supported_types.
  repeat (apply not_elem_of_cons; split; [discriminate|]).
  apply not_elem_of_nil.
Defined.

(** C8, as stated, fails: the service replied, the reply decoded, and the
    result is still a string, the questions numbered inside it. *)
Lemma qa_success_is_a_string :
  let outcome :=
    generate_interview_qa qa_service "Python developer" "Jane Doe"
      logged_in_world in
  chat_completion qa_service [] (qa_request "Python developer" "Jane Doe")
  = Ok (Some "qa.json")
  /\ json_loads qa_service "qa.json" = Ok qa_value
  /\ outcome.1
     = Ok (join newline
             [ "**1. What is a list?**";
               "Suggested Answer: An ordered sequence." +:+ newline;
               "**2. What is a dict?**";
               "Suggested Answer: A mapping." +:+ newline ]).
Proof. vm_compute. auto. Qed.

(** [generate_interview_qa_text] on a reply of two questions, and on a
    service that is down. *)
Lemma generate_interview_qa_text_witness :
  (generate_interview_qa qa_service "Python developer" "Jane Doe"
     logged_in_world).1
  = Ok (join newline
          (qa_text_lines (py_str qa_service) 0
             [ (VStr "What is a list?", VStr "An ordered sequence.");
               (VStr "What is a dict?", VStr "A mapping.") ]))
  /\ (generate_interview_qa no_service "Python developer" "Jane Doe"
        logged_in_world).1
     = Ok ("Error generating interview Q&A: " +:+ "Connection error.").
Proof.
  split.
  - apply (proj1 (proj2 (generate_interview_qa_text qa_service
                           "Python developer" "Jane Doe" logged_in_world))
             (Some "qa.json") qa_fields
             [ qa_entry "What is a list?" "An ordered sequence.";
               qa_entry "What is a dict?" "A mapping." ]).
    + reflexivity.
    + reflexivity.
    + reflexivity.
    + repeat constructor.
  - apply (proj1 (proj2 (proj2 (generate_interview_qa_text no_service
                                  "Python developer" "Jane Doe"
                                  logged_in_world)))
             (Exn (LibraryError "APIConnectionError") "Connection error.")).
    reflexivity.
Defined.

(** C6 (the code at the failing input): a logged-in user evaluates one
    resume and the service scores it; the row is produced, and reading
    [st.session_state.user_info] raises an [AttributeError] before
    [log_usage] is called: no usage is logged. *)
Theorem usage_log_lost :
  let outcome :=
    display_resume_dashboard (jane_service 1)
      (evaluate_click [txt_file "jane.txt" "Jane Doe"]) logged_in_world in
  map Candidate_Name (rows_of outcome.2) = [VStr "Jane Doe"]
  /\ usage_logs outcome.2 = []
  /\ exists msg, outcome.1 = Raise (Exn AttributeError msg).
Proof. vm_compute. eauto. Qed.

(** C9 (the code at the failing input): Alice is evaluated and selected;
    then Carol alone is evaluated; on the next run the selection "Alice
    Smith" is not among the ranked names, [list.index] raises a
    [ValueError], and the selection stays as it was. *)
Theorem stale_selection_fails :
  let w1 := run alice_then_carol (evaluate_click [alice_cv]) logged_in_world in
  let w2 := run alice_then_carol (rerun [alice_cv]) w1 in
  let w3 := run alice_then_carol (evaluate_click [carol_cv]) w2 in
  let outcome := display_resume_dashboard alice_then_carol (rerun [carol_cv]) w3 in
  selected_candidate (session w2) = Some (VStr "Alice Smith")
  /\ map Candidate_Name (sorted (rows_of w3) Score true) = [VStr "Carol Jones"]
  /\ selection_index [VStr "Carol Jones"] (VStr "Alice Smith")
     = Raise (Exn ValueError "list.index(x): x not in list")
  /\ outcome.1 = Raise (Exn ValueError "list.index(x): x not in list")
  /\ selected_candidate (session outcome.2) = Some (VStr "Alice Smith").
Proof. vm_compute. auto 6. Qed.

(** * Further properties *)

(** ** Strings, continued *)

Lemma sapp_cons (c : ascii) (s t : string) :
  String c s +:+ t = String c (s +:+ t).
Proof. reflexivity. Qed.

Lemma sapp_nil_l (t : string) : "" +:+ t = t.
Proof. reflexivity. Qed.

Ltac ssimpl := rewrite ?sapp_cons, ?sapp_nil_l in *.

Lemma sapp_nil_r (s : string) : s +:+ "" = s.
Proof. induction s as [|c s IH]; ssimpl; [done|]. by rewrite IH. Qed.

Lemma sapp_assoc (a b c : string) : (a +:+ b) +:+ c = a +:+ b +:+ c.
Proof. induction a as [|x a IH]; ssimpl; [done|]. by rewrite IH. Qed.

Lemma sapp_inv_head (a b c : string) : a +:+ b = a +:+ c -> b = c.
Proof. induction a as [|x a IH]; ssimpl; [done|]. intros [= H]. auto. Qed.

Lemma blank_app (a b : string) : blank (a +:+ b) = blank a && blank b.
Proof.
  unfold blank. induction a as [|c a IH]; ssimpl; simpl; [done|].
  by rewrite IH, andb_assoc.
Qed.

Lemma lstrip_decompose (s : string) :
  exists pre, s = pre +:+ lstrip s /\ blank pre = true.
Proof.
  induction s as [|c s (pre & Hs & Hpre)]; simpl; [by exists ""|].
  destruct (is_space c) eqn:Hc; [|by exists ""].
  exists (String c pre). ssimpl. rewrite <- Hs. split; [done|].
  unfold blank in *. simpl. by rewrite Hc.
Qed.

Lemma rstrip_decompose (s : string) :
  exists post, s = rstrip s +:+ post /\ blank post = true.
Proof.
  induction s as [|c s (post & Hs & Hpost)]; simpl; [by exists ""|].
  destruct (rstrip s) as [|d t] eqn:Ht.
  - destruct (is_space c) eqn:Hc.
    + exists (String c post). ssimpl. subst s. split; [done|].
      unfold blank in *. simpl. by rewrite Hc.
    + exists post. ssimpl. by subst s.
  - exists post. ssimpl. by rewrite <- Hs.
Qed.

Lemma lstrip_head (s : string) (c : ascii) (t : string) :
  lstrip s = String c t -> is_space c = false.
Proof.
  induction s as [|d s IH]; simpl; [done|].
  destruct (is_space d) eqn:Hd; [done|]. by intros [= <- _].
Qed.

Lemma rstrip_last (s init : string) (c : ascii) :
  rstrip s = init +:+ String c "" -> is_space c = false.
Proof.
  revert init. induction s as [|d s IH]; intros init; simpl.
  - by destruct init.
  - destruct (rstrip s) as [|e t] eqn:Ht.
    + destruct (is_space d) eqn:Hd; [by destruct init|].
      destruct init as [|x [|y init]]; ssimpl; [by intros [= <-]|done|done].
    + destruct init as [|x init]; ssimpl; [done|].
      intros [= _ H]. by apply (IH init).
Qed.

Lemma rstrip_head (c : ascii) (t : string) :
  is_space c = false -> exists t', rstrip (String c t) = String c t'.
Proof. intros Hc. simpl. destruct (rstrip t); rewrite ?Hc; eauto. Qed.

Lemma rstrip_idemp (s : string) : rstrip (rstrip s) = rstrip s.
Proof.
  induction s as [|c s IH]; simpl; [done|].
  destruct (rstrip s) as [|d t] eqn:Ht.
  - destruct (is_space c) eqn:Hc; simpl; [done|]. by rewrite Hc.
  - simpl in *. by rewrite IH.
Qed.

(** A stripped string is its own strip, and neither starts nor ends with
    white space. *)
Lemma strip_stripped (s : string) :
  strip (strip s) = strip s
  /\ (forall c t, strip s = String c t -> is_space c = false)
  /\ (forall init c, strip s = init +:+ String c "" -> is_space c = false).
Proof.
  unfold strip. split; [|split].
  - destruct (lstrip s) as [|c t] eqn:Hl; [done|].
    apply lstrip_head in Hl as Hc.
    destruct (rstrip_head c t Hc) as [t' Ht']. rewrite Ht'.
    simpl lstrip. rewrite Hc, <- Ht'. apply rstrip_idemp.
  - intros c t H. destruct (lstrip s) as [|d u] eqn:Hl; [done|].
    apply lstrip_head in Hl as Hd.
    destruct (rstrip_head d u Hd) as [t' Ht']. rewrite Ht' in H.
    by injection H as <- _.
  - intros init c. apply rstrip_last.
Qed.

Lemma newline_space : blank newline = true.
Proof. reflexivity. Qed.

Lemma join_blank (parts : list string) :
  Forall (fun p => blank p = true) parts -> blank (join newline parts) = true.
Proof.
  induction 1 as [|p parts Hp Hparts IH]; [done|].
  destruct parts as [|q parts]; [done|].
  change (join newline (p :: q :: parts))
    with (p +:+ newline +:+ join newline (q :: parts)).
  by rewrite !blank_app, Hp, newline_space, IH.
Qed.

(** ** Pattern matching *)

Lemma many_then_sound (class : ascii -> bool)
    (k : string -> option string) (s m : string) :
  many_then class k s = Some m ->
  exists cs s' m',
    s = cs +:+ s' /\ m = cs +:+ m'
    /\ forallb class (list_ascii_of_string cs) = true /\ k s' = Some m'.
Proof.
  revert m. induction s as [|c s IH]; intros m; simpl.
  - intros H. by exists "", "", m.
  - destruct (class c) eqn:Hc; [|intros H; by exists "", (String c s), m].
    destruct (many_then class k s) as [m1|] eqn:Hm;
      [|intros H; by exists "", (String c s), m].
    intros [= <-].
    destruct (IH m1 eq_refl) as (cs & s' & m' & -> & -> & Hall & Hk).
    exists (String c cs), s', m'. ssimpl. simpl. by rewrite Hc.
Qed.

Lemma many_then_complete (class : ascii -> bool)
    (k : string -> option string) (cs s' : string) :
  forallb class (list_ascii_of_string cs) = true ->
  is_Some (k s') -> is_Some (many_then class k (cs +:+ s')).
Proof.
  intros Hall Hk. induction cs as [|c cs IH]; ssimpl.
  - destruct s' as [|c s]; simpl; [done|].
    destruct (class c); [|done]. by destruct (many_then class k s).
  - simpl in *. apply andb_true_iff in Hall as [Hc Hall]. rewrite Hc.
    by destruct (IH Hall) as [m ->].
Qed.

(** What [match_here] returns is a match and a prefix of the text. *)
Lemma match_here_sound (pattern : list atom) (s m : string) :
  match_here pattern s = Some m ->
  matches pattern m /\ exists post, s = m +:+ post.
Proof.
  revert s m.
  induction pattern as [|[class|class] pattern IH]; intros s m; simpl.
  - intros [= <-]. split; [constructor|by exists s].
  - destruct s as [|c s]; [done|]. destruct (class c) eqn:Hc; [|done].
    destruct (match_here pattern s) as [m1|] eqn:Hm; [|done].
    intros [= <-]. destruct (IH _ _ Hm) as [Hmatch [post ->]].
    split; [by constructor|by exists post].
  - destruct s as [|c s]; [done|]. destruct (class c) eqn:Hc; [|done].
    destruct (many_then class (match_here pattern) s) as [m1|] eqn:Hm;
      [|done].
    intros [= <-].
    apply many_then_sound in Hm as (cs & s' & m' & -> & -> & Hall & Hk).
    destruct (IH _ _ Hk) as [Hmatch [post ->]].
    split; [by constructor|]. exists post. ssimpl. by rewrite sapp_assoc.
Qed.

(** Where the text starts with a match, [match_here] finds one. *)
Lemma match_here_complete (pattern : list atom) (m : string) :
  matches pattern m ->
  forall post, is_Some (match_here pattern (m +:+ post)).
Proof.
  induction 1 as [|class c pattern m Hc _ IH|class c cs pattern m Hc Hall _ IH];
    intros post; ssimpl; simpl.
  - done.
  - rewrite Hc. by destruct (IH post) as [x ->].
  - rewrite Hc, sapp_assoc.
    by destruct (many_then_complete class (match_here pattern) cs
                   (m +:+ post) Hall (IH post)) as [x ->].
Qed.

(** [re_search] returns a match that occurs in the text, with no match
    starting to its left. *)
Lemma re_search_sound (pattern : list atom) (s m : string) :
  re_search pattern s = Some m ->
  exists pre post,
    s = pre +:+ m +:+ post
    /\ match_here pattern (m +:+ post) = Some m
    /\ forall pre1 pre2,
         pre = pre1 +:+ pre2 -> pre2 <> "" ->
         match_here pattern (pre2 +:+ m +:+ post) = None.
Proof.
  induction s as [|c s IH]; simpl.
  - destruct (match_here pattern "") as [m1|] eqn:Hm; [|done].
    intros [= ->]. destruct (match_here_sound _ _ _ Hm) as [_ [post Hs]].
    exists "", post. ssimpl. rewrite <- Hs. split; [done|]. split; [done|].
    intros [|x pre1] [|y pre2]; ssimpl; done.
  - destruct (match_here pattern (String c s)) as [m1|] eqn:Hm.
    + intros [= ->]. destruct (match_here_sound _ _ _ Hm) as [_ [post Hs]].
      exists "", post. ssimpl. rewrite <- Hs. split; [done|]. split; [done|].
      intros [|x pre1] [|y pre2]; ssimpl; done.
    + intros H. destruct (IH H) as (pre & post & -> & Hhere & Hleft).
      exists (String c pre), post. ssimpl. split; [done|]. split; [done|].
      intros [|x pre1] pre2; ssimpl.
      * intros <- _. by ssimpl.
      * intros [= <- ->] Hne. by apply (Hleft pre1).
Qed.

(** [re_search] finds nothing exactly when no part of the text is a
    match. *)
Lemma re_search_none (pattern : list atom) (s : string) :
  re_search pattern s = None <->
  forall pre m post, s = pre +:+ m +:+ post -> ~ matches pattern m.
Proof.
  split.
  - induction s as [|c s IH]; simpl.
    + destruct (match_here pattern "") eqn:Hm; [done|]. intros _.
      intros [|x pre] m post; ssimpl; [|done]. intros Hs Hmatch.
      destruct (match_here_complete _ _ Hmatch post) as [y Hy]. congruence.
    + destruct (match_here pattern (String c s)) eqn:Hm; [done|].
      intros H [|x pre] m post; ssimpl.
      * intros Hs Hmatch.
        destruct (match_here_complete _ _ Hmatch post) as [y Hy]. congruence.
      * intros [= <- ->]. by apply (IH H pre m post).
  - intros Hnone. destruct (re_search pattern s) as [m|] eqn:Hs; [|done].
    destruct (re_search_sound _ _ _ Hs) as (pre & post & -> & Hhere & _).
    destruct (match_here_sound _ _ _ Hhere) as [Hmatch _].
    by destruct (Hnone pre m post).
Qed.


Lemma many_then_total (class : ascii -> bool)
    (k : string -> option string) (s : string) :
  (forall s', is_Some (k s')) -> is_Some (many_then class k s).
Proof.
  intros Hk. induction s as [|c s IH]; simpl; [done|].
  destruct (class c); [|done]. by destruct IH as [m ->].
Qed.

Lemma many_then_nil_stops (class : ascii -> bool)
    (k : string -> option string) (s m : string) (c : ascii) (post : string) :
  (forall s', k s' = Some "") ->
  many_then class k s = Some m ->
  s = m +:+ String c post -> class c = false.
Proof.
  intros Hk. revert m. induction s as [|a s IH]; intros m; simpl.
  - rewrite Hk. intros [= <-]. by ssimpl.
  - destruct (class a) eqn:Ha.
    + destruct (many_then_total class k s) as [m1 Hm1];
        [intros s'; by rewrite Hk|].
      rewrite Hm1. intros [= <-]. ssimpl. intros [= Hs]. by apply (IH m1).
    + rewrite Hk. intros [= <-]. ssimpl. by intros [= <- _].
Qed.

Lemma stops_before_last (class : ascii -> bool) :
  stops_before class (match_here [Many1 class]).
Proof.
  intros s m c post H Hs. simpl in H. destruct s as [|a s]; [done|].
  destruct (class a); [|done].
  match type of H with context [many_then class ?k s] =>
    destruct (many_then class k s) as [m1|] eqn:Hm; [|done];
    injection H as <-; ssimpl; injection Hs as Hs;
    by apply (many_then_nil_stops class k s m1 c post)
  end.
Qed.

Lemma stops_before_one (class0 class : ascii -> bool) (pattern : list atom) :
  stops_before class0 (match_here pattern) ->
  stops_before class0 (match_here (One class :: pattern)).
Proof.
  intros Hk s m c post H Hs. simpl in H. destruct s as [|a s]; [done|].
  destruct (class a); [|done].
  destruct (match_here pattern s) as [m1|] eqn:Hm; [|done].
  injection H as <-. ssimpl. injection Hs as Hs. by apply (Hk s m1 c post).
Qed.

Lemma stops_before_many (class0 class : ascii -> bool)
    (pattern : list atom) :
  stops_before class0 (match_here pattern) ->
  stops_before class0 (match_here (Many1 class :: pattern)).
Proof.
  intros Hk s m c post H Hs. simpl in H. destruct s as [|a s]; [done|].
  destruct (class a); [|done].
  destruct (many_then class (match_here pattern) s) as [m1|] eqn:Hm; [|done].
  injection H as <-. ssimpl. injection Hs as Hs.
  apply many_then_sound in Hm as (cs & s' & m' & -> & -> & _ & Hm').
  rewrite sapp_assoc in Hs. apply sapp_inv_head in Hs.
  by apply (Hk s' m' c post).
Qed.

Lemma email_stops_before :
  stops_before email_suffix_char (match_here email_pattern).
Proof.
  unfold email_pattern.
  apply stops_before_many, stops_before_one, stops_before_many,
    stops_before_one, stops_before_last.
Qed.

(** ** Lines *)

Lemma list_ascii_app (a b : string) :
  list_ascii_of_string (a +:+ b)
  = list_ascii_of_string a ++ list_ascii_of_string b.
Proof. induction a as [|c a IH]; ssimpl; simpl; [done|]. by rewrite IH. Qed.

(** The first piece of a split holds no separator, and the text goes on
    with a separator or ends. *)
Lemma split_on_first (sep : ascii) (s : string) :
  exists first tail,
    head (split_on sep s) = Some first
    /\ s = first +:+ tail
    /\ Forall (fun c => c <> sep) (list_ascii_of_string first)
    /\ (tail = "" \/ exists tail', tail = String sep tail').
Proof.
  induction s as [|c s (first & tail & Hhead & Hs & Hfirst & Htail)]; simpl.
  - exists "", "". repeat split; auto.
  - destruct (Ascii.eqb c sep) eqn:Hc.
    + apply Ascii.eqb_eq in Hc as ->. exists "", (String sep s).
      repeat split; eauto.
    + apply Ascii.eqb_neq in Hc.
      destruct (split_on sep s) as [|f rest]; [done|].
      injection Hhead as ->. exists (String c first), tail.
      ssimpl. simpl. rewrite <- Hs. repeat split; auto.
Qed.

(** ** utils.py: [retrieve_contact_details] *)

Lemma is_char_eq (d c : ascii) : is_char d c = true -> c = d.
Proof. unfold is_char. apply Ascii.eqb_eq. Qed.

(** A match of the e-mail pattern, taken apart. *)
Lemma email_pattern_shape (m : string) :
  matches email_pattern m ->
  exists local domain suffix,
    m = local +:+ "@" +:+ domain +:+ "." +:+ suffix
    /\ local <> ""
    /\ forallb email_local_char (list_ascii_of_string local) = true
    /\ domain <> ""
    /\ forallb email_domain_char (list_ascii_of_string domain) = true
    /\ suffix <> ""
    /\ forallb email_suffix_char (list_ascii_of_string suffix) = true.
Proof.
  unfold email_pattern. intros H.
  inversion H as [| |? c1 cs1 ? m1 Hc1 Hcs1 H1]; subst; clear H.
  inversion H1 as [|? c2 ? m2 Hc2 H2|]; subst; clear H1.
  inversion H2 as [| |? c3 cs3 ? m3 Hc3 Hcs3 H3]; subst; clear H2.
  inversion H3 as [|? c4 ? m4 Hc4 H4|]; subst; clear H3.
  inversion H4 as [| |? c5 cs5 ? m5 Hc5 Hcs5 H5]; subst; clear H4.
  inversion H5; subst; clear H5.
  apply is_char_eq in Hc2 as ->. apply is_char_eq in Hc4 as ->.
  exists (String c1 cs1), (String c3 cs3), (String c5 cs5).
  rewrite sapp_nil_r. ssimpl. simpl. rewrite Hc1, Hc3, Hc5.
  repeat split; done.
Qed.

Lemma split_on_head (sep : ascii) (first tail : string) :
  Forall (fun c => c <> sep) (list_ascii_of_string first) ->
  tail = "" \/ (exists tail', tail = String sep tail') ->
  head (split_on sep (first +:+ tail)) = Some first.
Proof.
  intros Hfirst Htail. induction first as [|c first IH]; ssimpl.
  - destruct Htail as [->|[tail' ->]]; simpl; [done|].
    by rewrite Ascii.eqb_refl.
  - simpl in Hfirst. apply Forall_cons in Hfirst as [Hc Hfirst].
    simpl. apply Ascii.eqb_neq in Hc. rewrite Hc.
    specialize (IH Hfirst).
    destruct (split_on sep (first +:+ tail)) as [|f rest]; [done|].
    simpl in IH. by injection IH as ->.
Qed.

Lemma lstrip_app_blank (pre s : string) :
  blank pre = true -> lstrip (pre +:+ s) = lstrip s.
Proof.
  unfold blank. induction pre as [|c pre IH]; ssimpl; simpl; [done|].
  intros H. apply andb_true_iff in H as [Hc Hpre]. rewrite Hc. auto.
Qed.

Lemma rstrip_blank (s : string) : blank s = true -> rstrip s = "".
Proof.
  unfold blank. induction s as [|c s IH]; simpl; [done|].
  intros H. apply andb_true_iff in H as [Hc Hs]. by rewrite IH, Hc.
Qed.

Lemma rstrip_app_blank (s post : string) :
  blank post = true -> rstrip (s +:+ post) = rstrip s.
Proof.
  intros H. induction s as [|c s IH]; ssimpl; simpl.
  - by apply rstrip_blank.
  - by rewrite IH.
Qed.

Lemma rstrip_no_space (s : string) :
  (forall init c, s = init +:+ String c "" -> is_space c = false) ->
  rstrip s = s.
Proof.
  induction s as [|c s IH]; intros H; simpl; [done|].
  rewrite IH.
  - destruct s as [|d s]; [|done].
    by rewrite (H "" c).
  - intros init d ->. apply (H (String c init) d). by ssimpl.
Qed.

(** X1: the name [retrieve_contact_details] returns is the first line of
    the text without the white space around it, and nothing else is:
    the text reads white space, the name, white space, and then ends or
    goes on with a newline; there is no newline before that point, and
    the name neither starts nor ends with white space. *)
Theorem contact_name_first_line (text name : string) :
  (retrieve_contact_details text).1 = name
  <-> exists pre post rest,
        text = pre +:+ name +:+ post +:+ rest
        /\ blank pre = true
        /\ blank post = true
        /\ Forall (fun c => c <> ascii_of_nat 10)
             (list_ascii_of_string (pre +:+ name +:+ post))
        /\ (rest = ""
            \/ exists rest', rest = String (ascii_of_nat 10) rest')
        /\ (forall c t, name = String c t -> is_space c = false)
        /\ (forall init c,
              name = init +:+ String c "" -> is_space c = false).
Proof.
  unfold retrieve_contact_details. simpl. split.
  - intros <-.
    destruct (split_on_first (ascii_of_nat 10) text)
      as (first & tail & -> & Htext & Hfirst & Htail).
    simpl. destruct (strip_stripped first) as (_ & Hhead & Hlast).
    unfold strip in *.
    destruct (lstrip_decompose first) as (pre & Hpre & Hblank).
    destruct (rstrip_decompose (lstrip first)) as (post & Hpost & Hblank').
    exists pre, post, tail.
    split; [by rewrite Htext, Hpre at 1; rewrite Hpost at 1;
              rewrite !sapp_assoc|].
    split; [done|]. split; [done|].
    split; [by rewrite <- Hpost, <- Hpre|]. auto.
  - intros (pre & post & rest & -> & Hpre & Hpost & Hline & Hrest & Hhead
            & Hlast).
    rewrite <- !sapp_assoc, (sapp_assoc pre), split_on_head by done.
    simpl. unfold strip. rewrite lstrip_app_blank by done.
    destruct name as [|c t].
    + ssimpl. by rewrite lstrip_blank.
    + ssimpl. simpl. rewrite (Hhead c t eq_refl).
      change (String c (t +:+ post)) with (String c t +:+ post).
      rewrite rstrip_app_blank by done. by apply rstrip_no_space.
Qed.

(** X2: an e-mail address returned by [retrieve_contact_details] occurs in
    the text and reads local@domain.suffix: a local part of letters,
    digits and [_.+-], a domain of letters, digits and [-], a suffix of
    letters, digits, [-] and [.], none of them empty. *)
Theorem contact_email_shape (text email : string) :
  (retrieve_contact_details text).2 = Some email ->
  exists pre post local domain suffix,
    text = pre +:+ email +:+ post
    /\ email = local +:+ "@" +:+ domain +:+ "." +:+ suffix
    /\ local <> ""
    /\ forallb email_local_char (list_ascii_of_string local) = true
    /\ domain <> ""
    /\ forallb email_domain_char (list_ascii_of_string domain) = true
    /\ suffix <> ""
    /\ forallb email_suffix_char (list_ascii_of_string suffix) = true.
Proof.
  unfold retrieve_contact_details. simpl. intros H.
  apply re_search_sound in H as (pre & post & Htext & Hhere & _).
  apply match_here_sound in Hhere as [Hmatch _].
  destruct (email_pattern_shape _ Hmatch) as (local & domain & suffix & Hs).
  exists pre, post, local, domain, suffix. tauto.
Qed.

(** X3: [retrieve_contact_details] returns no e-mail address exactly when
    no part of the text matches the pattern; a text without "@" has
    none. *)
Theorem contact_email_none (text : string) :
  ((retrieve_contact_details text).2 = None <->
   forall pre m post, text = pre +:+ m +:+ post -> ~ matches email_pattern m)
  /\ (Forall (fun c => c <> "@"%char) (list_ascii_of_string text) ->
      (retrieve_contact_details text).2 = None).
Proof.
  unfold retrieve_contact_details. simpl.
  split; [apply re_search_none|].
  intros Hat. apply re_search_none. intros pre m post -> Hmatch.
  destruct (email_pattern_shape _ Hmatch)
    as (local & domain & suffix & -> & _).
  rewrite !list_ascii_app, !Forall_app in Hat.
  destruct Hat as (_ & (_ & Hat & _) & _).
  by inversion Hat.
Qed.

(** X4: the address returned is the first one in the text, taken as far
    to the right as it goes: no match of the pattern starts before it, and
    the character after it, if any, is no letter, digit, [-] or [.]. *)
Theorem contact_email_first_longest (text email : string) :
  (retrieve_contact_details text).2 = Some email ->
  exists pre post,
    text = pre +:+ email +:+ post
    /\ (forall pre1 pre2 m post',
          pre = pre1 +:+ pre2 -> pre2 <> "" -> matches email_pattern m ->
          pre2 +:+ email +:+ post <> m +:+ post')
    /\ (forall c post', post = String c post' -> email_suffix_char c = false).
Proof.
  unfold retrieve_contact_details. simpl. intros H.
  apply re_search_sound in H as (pre & post & Htext & Hhere & Hleft).
  exists pre, post. repeat split; [done| |].
  - intros pre1 pre2 m post' Hpre Hne Hmatch Heq.
    specialize (Hleft pre1 pre2 Hpre Hne). rewrite Heq in Hleft.
    destruct (match_here_complete _ _ Hmatch post') as [x Hx]. congruence.
  - intros c post' ->.
    by apply (email_stops_before _ _ c post' Hhere).
Qed.

(** ** utils.py: the text that is extracted *)

Section Extraction.
Context (ext : externals).

(** X5: whatever [fetch_text_content] returns neither starts nor ends
    with white space, and stripping it again changes nothing. *)
Theorem fetch_text_content_trimmed (file_obj : uploaded_file)
    (text : string) :
  fetch_text_content ext file_obj = Ok text ->
  strip text = text
  /\ (forall c t, text = String c t -> is_space c = false)
  /\ (forall init c, text = init +:+ String c "" -> is_space c = false).
Proof.
  unfold fetch_text_content, get_pdf_content, get_docx_content,
    get_txt_content.
  unfold mbind, result_bind, rbind, mret, result_ret.
  repeat match goal with
         | |- context [if ?b then _ else _] => destruct b
         end;
    try discriminate;
    match goal with
    | |- context [match ?r with Ok _ => _ | Raise _ => _ end] =>
        destruct r; [|discriminate]
    end;
    intros [= <-]; apply strip_stripped.
Qed.

(** X6: a document of a supported type in which the reader finds only
    white space, or nothing, extracts to the empty string: a PDF whose
    pages have no text, a DOCX of blank paragraphs, a blank text file. *)
Theorem fetch_text_content_blank (file_obj : uploaded_file) :
  (type file_obj = "application/pdf" ->
   forall pages,
     pdf_pages ext (data file_obj) = Ok pages ->
     Forall (fun page => blank (default "" page) = true) pages ->
     fetch_text_content ext file_obj = Ok "")
  /\ (type file_obj = "application/msword"
      \/ type file_obj
         = "application/vnd.openxmlformats-officedocument.wordprocessingml.document" ->
      forall paras,
        docx_paragraphs ext (data file_obj) = Ok paras ->
        Forall (fun para => blank para = true) paras ->
        fetch_text_content ext file_obj = Ok "")
  /\ (type file_obj = "text/plain" ->
      forall text,
        utf8_decode ext (data file_obj) = Ok text ->
        blank text = true ->
        fetch_text_content ext file_obj = Ok "").
Proof.
  unfold fetch_text_content, get_pdf_content, get_docx_content,
    get_txt_content.
  unfold mbind, result_bind, rbind, mret, result_ret.
  repeat split.
  - intros -> pages -> Hall. simpl. f_equal. apply strip_blank, join_blank.
    by apply Forall_fmap.
  - intros [-> | ->] paras -> Hall; simpl; f_equal;
      by apply strip_blank, join_blank.
  - intros -> text -> Hblank. simpl. f_equal. by apply strip_blank.
Qed.

End Extraction.

(** ** resume_analysis.py: the evaluation *)

Section EvaluationOutcome.
Context (ext : externals).

(** The three ways a request for an evaluation can end. *)
Lemma perform_resume_evaluation_outcome (job_desc resume_content : string)
    (w : world) :
  blank resume_content = false ->
  (perform_resume_evaluation ext job_desc resume_content w).1
  = match chat_completion ext (ai_calls w)
            (evaluation_request job_desc resume_content) with
    | Raise e => Ok (error_dict ("AI evaluation failed: " +:+ exn_msg e))
    | Ok content =>
        match json_loads_content ext content with
        | Raise e => Ok (error_dict ("AI evaluation failed: " +:+ exn_msg e))
        | Ok v => Ok v
        end
    end.
Proof.
  intros H. unfold perform_resume_evaluation.
  destruct (strip resume_content) eqn:E.
  - apply strip_empty_iff in E. congruence.
  - simpl. unfold try_exceptM, mbind, M_bind, ai_call, lift. simpl.
    destruct (chat_completion ext _ _) as [content|e]; simpl; [|done].
    by destruct (json_loads_content ext content).
Qed.

(** X7: for a resume that is not blank, [perform_resume_evaluation]
    never raises: a failure of the service call, or of the decoding of its
    reply, comes back as the dict {"error": "AI evaluation failed: ..."}
    with the failure's message, and a reply that decodes comes back as
    decoded, whatever its shape. *)
Theorem perform_resume_evaluation_failures (job_desc resume_content : string)
    (w : world) :
  blank resume_content = false ->
  let reply :=
    chat_completion ext (ai_calls w)
      (evaluation_request job_desc resume_content) in
  let outcome :=
    (perform_resume_evaluation ext job_desc resume_content w).1 in
  (forall e, reply = Raise e ->
     outcome = Ok (error_dict ("AI evaluation failed: " +:+ exn_msg e)))
  /\ (forall content e,
        reply = Ok content -> json_loads_content ext content = Raise e ->
        outcome = Ok (error_dict ("AI evaluation failed: " +:+ exn_msg e)))
  /\ (forall content v,
        reply = Ok content -> json_loads_content ext content = Ok v ->
        outcome = Ok v).
Proof.
  intros H. simpl. rewrite (perform_resume_evaluation_outcome _ _ _ H).
  repeat split.
  - by intros e ->.
  - by intros content e -> ->.
  - by intros content v -> ->.
Qed.

(** X8: a value that is not a dict never yields an evaluation:
    [parse_evaluation] returns score 0, match "No", no skills, the name
    "Unknown" and the email "N/A" for every list, string, number, boolean
    and null, with the empty rationale when the list holds the string
    "error" or the string contains it. *)
Theorem parse_evaluation_not_a_dict (evaluation_data : pyvalue) :
  (forall d, evaluation_data <> VDict d) ->
  exists rationale,
    parse_evaluation ext evaluation_data
    = Ok (0, VStr "No", VList [], VStr rationale, VStr "Unknown",
          VStr "N/A")
    /\ (py_contains "error" evaluation_data = Ok true -> rationale = "").
Proof.
  intros Hd. unfold parse_evaluation, try_except.
  unfold mbind, result_bind, rbind, py_contains.
  destruct evaluation_data as [| | | |s|l|d];
    try (eexists; split; [reflexivity|discriminate]).
  - destruct (is_substring "error" s);
      eexists; (split; [reflexivity|]); [done|discriminate].
  - destruct (existsb (py_eq (VStr "error")) l);
      eexists; (split; [reflexivity|]); [done|discriminate].
  - by destruct (Hd d).
Qed.

(** X9: for a dict without the key "error" whose "Score" converts to an
    integer (a missing one counts as 0), the fields come back as they are
    in the dict, each missing one replaced by its default; the score is
    not held to 0..100, and "Match" is not derived from it. *)
Theorem parse_evaluation_fields (d : gmap string pyvalue) (score : Z) :
  d !! "error" = None ->
  py_int ext (default (VInt 0) (d !! "Score")) = Ok score ->
  parse_evaluation ext (VDict d)
  = Ok (score,
        default (VStr "No") (d !! "Match"),
        default (VList []) (d !! "Skills Found"),
        default (VStr "No explanation provided.") (d !! "Rationale"),
        default (VStr "Unknown") (d !! "Candidate Name"),
        default (VStr "N/A") (d !! "Email")).
Proof.
  intros Herr Hscore. unfold parse_evaluation, try_except. simpl.
  rewrite Herr. simpl. unfold mbind, result_bind, rbind.
  rewrite Hscore. reflexivity.
Qed.

(** An error dict is read as no evaluation, its message dropped. *)
Lemma parse_evaluation_error_message (message : string) :
  parse_evaluation ext (error_dict message) = Ok (no_evaluation "").
Proof.
  unfold parse_evaluation, try_except, error_dict. simpl.
  rewrite lookup_singleton_eq. reflexivity.
Qed.

End EvaluationOutcome.

(** ** resume_analysis.py: the prompts *)

Lemma is_prefix_app (p s : string) : is_prefix p (p +:+ s) = true.
Proof.
  induction p as [|c p IH]; ssimpl; simpl; [by destruct s|].
  by rewrite Ascii.eqb_refl.
Qed.

Lemma is_substring_here (p s : string) : is_substring p (p +:+ s) = true.
Proof.
  destruct (p +:+ s) eqn:E; simpl; rewrite <- E, is_prefix_app; done.
Qed.

Lemma is_substring_later (p a s : string) :
  is_substring p s = true -> is_substring p (a +:+ s) = true.
Proof.
  intros H. induction a as [|c a IH]; ssimpl; [done|].
  simpl. rewrite IH. apply orb_true_r.
Qed.

(** X10: both prompts hold the job description and the resume text as
    they are given. *)
Theorem prompts_embed_inputs (job_desc resume_content : string) :
  is_substring job_desc
    (user_content (evaluation_request job_desc resume_content)) = true
  /\ is_substring resume_content
       (user_content (evaluation_request job_desc resume_content)) = true
  /\ is_substring job_desc
       (user_content (qa_request job_desc resume_content)) = true
  /\ is_substring resume_content
       (user_content (qa_request job_desc resume_content)) = true.
Proof.
  unfold evaluation_request, qa_request, evaluation_prompt, qa_prompt.
  cbn [user_content join].
  repeat split;
    repeat first [ apply is_substring_here
                 | apply is_substring_later ].
Qed.

(** ** resume_analysis.py: the batch, continued *)

Section BatchRows.
Context (ext : externals).

(** X11: a document whose text is blank, or for which the service call
    fails, is not reported as failed: it leaves a row with the name
    "Unknown", score 0, match "No", the email "N/A" and the empty
    rationale, its text is kept under the name "Unknown", and [st.error]
    is not called. *)
Theorem unevaluated_resume_row (jd_text : string) (resume : uploaded_file)
    (text : string) (w : world) (rows : list candidate_entry)
    (texts : list (pyvalue * string)) :
  fetch_text_content ext resume = Ok text ->
  results (session w) = Some rows ->
  resume_texts (session w) = Some texts ->
  blank text = true
  \/ (exists e, chat_completion ext (ai_calls w)
                  (evaluation_request jd_text text) = Raise e) ->
  let w' := (process_resume ext jd_text resume w).2 in
  results (session w')
  = Some (rows ++ [ {| Candidate_Name := VStr "Unknown";
                       Email := VStr "N/A"; Score := 0;
                       Match := VStr "No"; Skills_Found := VList [];
                       Rationale := VStr "" |} ])
  /\ resume_texts (session w')
     = Some (dict_set (VStr "Unknown") text texts)
  /\ st_errors w' = st_errors w.
Proof.
  intros Hfetch Hrows Htexts Hcase.
  destruct (process_resume ext jd_text resume w) as [r w'] eqn:H.
  rewrite process_resume_run in H. unfold process_resume_body in H.
  unfold mbind at 1 in H. unfold M_bind, lift in H. rewrite Hfetch in H.
  unfold mbind at 1 in H. unfold M_bind in H.
  assert (exists message w1,
            perform_resume_evaluation ext jd_text text w
            = (Ok (error_dict message), w1)
            /\ session w1 = session w /\ st_errors w1 = st_errors w)
    as (message & w1 & Hrun & Hs & He).
  { destruct (blank text) eqn:Hblank.
    - rewrite (perform_resume_evaluation_blank ext _ _ _ Hblank). eauto.
    - destruct Hcase as [|[e Hreply]]; [done|].
      pose proof (perform_resume_evaluation_outcome ext jd_text text w Hblank)
        as Hout.
      rewrite Hreply in Hout.
      destruct (perform_resume_evaluation_effect ext jd_text text w)
        as (v & w1 & Hrun & Hs & He & _).
      rewrite Hrun in Hout. simpl in Hout. injection Hout as ->.
      rewrite Hrun. eauto. }
  rewrite Hrun in H.
  unfold mbind at 1 in H. unfold M_bind, lift in H.
  rewrite parse_evaluation_error_message in H. unfold no_evaluation in H.
  unfold mbind at 1 in H. unfold M_bind, session_attr in H.
  rewrite Hs, Hrows in H.
  unfold mbind, M_bind, modify_session in H. simpl in H.
  rewrite Hs, Htexts in H. simpl in H.
  injection H as _ <-. simpl. by rewrite He.
Qed.

Lemma process_batch_rows_le (jd_text : string)
    (files : list uploaded_file) (w : world) :
  (length (rows_of (process_batch ext jd_text files w).2)
   <= length (rows_of w) + length files)%nat.
Proof.
  revert w. induction files as [|resume files IH]; intros w; simpl; [lia|].
  rewrite process_batch_cons.
  destruct (process_resume_effect ext jd_text resume w)
    as (_ & _ & _ & Hcase).
  specialize (IH (process_resume ext jd_text resume w).2).
  assert (length (rows_of (process_resume ext jd_text resume w).2)
          <= S (length (rows_of w)))%nat; [|lia].
  destruct Hcase as [[_ [row ->]]|(e & _ & [->|[row ->]])];
    rewrite ?length_app; simpl; lia.
Qed.

(** The session and the messages a batch leaves are those of its loop,
    run on empty stores. *)
Lemma evaluate_resumes_world (jd_text : string)
    (files : list uploaded_file) (w : world) :
  let w0 :=
    {| session := set_resume_texts [] (set_results [] (session w));
       ai_calls := ai_calls w; st_errors := st_errors w;
       usage_logs := usage_logs w |} in
  let w1 := (process_batch ext jd_text files w0).2 in
  let w' := (evaluate_resumes ext jd_text files w).2 in
  session w' = session w1 /\ st_errors w' = st_errors w1
  /\ ai_calls w' = ai_calls w1.
Proof.
  simpl. destruct (evaluate_resumes ext jd_text files w) as [r w'] eqn:H.
  unfold evaluate_resumes, mbind, M_bind, modify_session in H.
  simpl in H.
  match type of H with context [process_batch ext jd_text files ?w0] =>
    pose proof (process_batch_ok ext jd_text files w0) as Hok;
    destruct (process_batch ext jd_text files w0) as [r1 w1]
  end.
  simpl in *. subst r1. unfold session_attr in H.
  destruct (results (session w1)) as [[|row rows]|];
    [by inversion H| |by inversion H].
  simpl in H. destruct (user_info (session w1)) as [info|];
    [|by inversion H].
  unfold lift in H. destruct (py_getitem info "email");
    by inversion H.
Qed.

End BatchRows.

(** ** resume_analysis.py: the batch, document by document *)

Section BatchOutcomes.
Context (ext : externals).

Lemma parse_evaluation_tuple (v : pyvalue) :
  exists sc ma sk ra cn em, parse_evaluation ext v = Ok (sc, ma, sk, ra, cn, em).
Proof.
  unfold parse_evaluation, try_except.
  match goal with |- context [match ?b with Ok _ => _ | Raise _ => _ end] =>
    destruct b as [[[[[[sc ma] sk] ra] cn] em]|e] end.
  - by exists sc, ma, sk, ra, cn, em.
  - unfold no_evaluation. eauto 10.
Qed.

(** A document whose extraction raises: the failure is reported under its
    name and nothing else happens. *)
Lemma process_resume_not_extracted (jd_text : string)
    (resume : uploaded_file) (w : world) (e : exn) :
  fetch_text_content ext resume = Raise e ->
  process_resume ext jd_text resume w = (Ok tt, report_failure resume e w).
Proof.
  intros H. rewrite process_resume_run. unfold process_resume_body.
  unfold mbind at 1. unfold M_bind, lift. rewrite H. reflexivity.
Qed.

(** A document whose text is extracted: the request is sent unless the
    text is blank, the row made of what [parse_evaluation] returns is
    appended, and the text is kept under the row's name, or the name is
    reported as unhashable. *)
Lemma process_resume_extracted (jd_text : string) (resume : uploaded_file)
    (text : string) (w : world) (rows : list candidate_entry)
    (texts : list (pyvalue * string)) :
  fetch_text_content ext resume = Ok text ->
  results (session w) = Some rows ->
  resume_texts (session w) = Some texts ->
  exists v sc ma sk ra cn em,
    (perform_resume_evaluation ext jd_text text w).1 = Ok v
    /\ parse_evaluation ext v = Ok (sc, ma, sk, ra, cn, em)
    /\ (process_resume ext jd_text resume w).2
       = {| session :=
              (if hashable cn
               then set_resume_texts (dict_set cn text texts)
               else fun s => s)
                (set_results
                   (rows ++ [ {| Candidate_Name := cn; Email := em;
                                 Score := sc; Match := ma;
                                 Skills_Found := sk; Rationale := ra |} ])
                   (session w));
            ai_calls :=
              ai_calls w
              ++ (if blank text then []
                  else [evaluation_request jd_text text]);
            st_errors :=
              st_errors w
              ++ (if hashable cn then []
                  else [failure_message resume (unhashable cn)]);
            usage_logs := usage_logs w |}.
Proof.
  intros Hfetch Hrows Htexts.
  destruct (process_resume ext jd_text resume w) as [r w'] eqn:H.
  rewrite process_resume_run in H. unfold process_resume_body in H.
  unfold mbind at 1 in H. unfold M_bind, lift in H. rewrite Hfetch in H.
  unfold mbind at 1 in H. unfold M_bind in H.
  assert (ai_calls (perform_resume_evaluation ext jd_text text w).2
          = ai_calls w
            ++ (if blank text then [] else [evaluation_request jd_text text]))
    as Hcalls.
  { destruct (blank text) eqn:Hblank.
    - rewrite perform_resume_evaluation_blank by done. by rewrite app_nil_r.
    - by apply perform_resume_evaluation_calls. }
  destruct (perform_resume_evaluation_effect ext jd_text text w)
    as (v & w1 & Hrun & Hs & He & Hu).
  rewrite Hrun in H, Hcalls |- *. simpl in Hcalls.
  destruct (parse_evaluation_tuple v) as (sc & ma & sk & ra & cn & em & Hparse).
  exists v, sc, ma, sk, ra, cn, em. split; [done|]. split; [done|].
  unfold mbind at 1 in H. unfold M_bind, lift in H. rewrite Hparse in H.
  unfold mbind at 1 in H. unfold M_bind, session_attr in H.
  rewrite Hs, Hrows in H.
  unfold mbind, M_bind, modify_session in H. simpl in H.
  rewrite Hs, Htexts in H. simpl in H.
  destruct (hashable cn); simpl in H; injection H as _ <-; simpl;
    rewrite ?app_nil_r, Hcalls, He, Hu; reflexivity.
Qed.


(** One turn of the loop sends the request of its document, if it has
    one, whatever else the turn does. *)
Lemma process_resume_requests (jd_text : string) (resume : uploaded_file)
    (w : world) :
  ai_calls (process_resume ext jd_text resume w).2
  = ai_calls w ++ evaluation_requests ext jd_text [resume].
Proof.
  unfold evaluation_requests. simpl. rewrite app_nil_r.
  destruct (process_resume ext jd_text resume w) as [r w'] eqn:H.
  cbn [snd]. rewrite process_resume_run in H.
  unfold process_resume_body in H.
  unfold mbind, M_bind, lift, session_attr, modify_session in H.
  destruct (fetch_text_content ext resume) as [text|e];
    [|inversion H; subst; simpl; by rewrite app_nil_r].
  assert (ai_calls (perform_resume_evaluation ext jd_text text w).2
          = ai_calls w
            ++ (if blank text then [] else [evaluation_request jd_text text]))
    as Hcalls.
  { destruct (blank text) eqn:Hblank.
    - rewrite perform_resume_evaluation_blank by done. by rewrite app_nil_r.
    - by apply perform_resume_evaluation_calls. }
  destruct (perform_resume_evaluation_effect ext jd_text text w)
    as (v & w1 & Hrun & _).
  rewrite Hrun in H, Hcalls. simpl in Hcalls. rewrite <- Hcalls.
  destruct (parse_evaluation ext v) as [[[[[[sc ma] sk] ra] cn] em]|e];
    [|by inversion H].
  destruct (results (session w1)) as [rows|]; [|by inversion H].
  simpl in H.
  destruct (resume_texts (session w1)) as [texts|]; [|by inversion H].
  destruct (hashable cn); by inversion H.
Qed.

Lemma process_batch_requests (jd_text : string)
    (files : list uploaded_file) (w : world) :
  ai_calls (process_batch ext jd_text files w).2
  = ai_calls w ++ evaluation_requests ext jd_text files.
Proof.
  revert w. induction files as [|resume files IH]; intros w.
  - simpl. by rewrite app_nil_r.
  - rewrite process_batch_cons, IH, process_resume_requests.
    unfold evaluation_requests. simpl. by rewrite app_nil_r, <- app_assoc.
Qed.

(** The batch, document by document: each leaves its outcome, and the
    rows and the messages of the batch are those of its documents in
    upload order. *)
Lemma process_batch_outcomes (jd_text : string)
    (files : list uploaded_file) (w : world) (rows : list candidate_entry)
    (texts : list (pyvalue * string)) :
  results (session w) = Some rows ->
  resume_texts (session w) = Some texts ->
  let w' := (process_batch ext jd_text files w).2 in
  exists outcomes texts',
    Forall2 (outcome_of ext) files outcomes
    /\ results (session w') = Some (rows ++ omap fst outcomes)
    /\ resume_texts (session w') = Some texts'
    /\ st_errors w' = st_errors w ++ omap snd outcomes.
Proof.
  revert w rows texts.
  induction files as [|resume files IH]; intros w rows texts Hrows Htexts.
  - exists [], texts. simpl. rewrite !app_nil_r. repeat split; auto.
  - simpl. rewrite process_batch_cons.
    destruct (fetch_text_content ext resume) as [text|e] eqn:Hfetch.
    + destruct (process_resume_extracted jd_text resume text w rows texts
                  Hfetch Hrows Htexts)
        as (v & sc & ma & sk & ra & cn & em & _ & _ & Hw).
      set (row := {| Candidate_Name := cn; Email := em; Score := sc;
                     Match := ma; Skills_Found := sk; Rationale := ra |})
        in *.
      set (w1 := (process_resume ext jd_text resume w).2) in *.
      assert (results (session w1) = Some (rows ++ [row])) as Hrows1.
      { rewrite Hw. simpl. by destruct (hashable cn). }
      assert (exists texts1, resume_texts (session w1) = Some texts1)
        as [texts1 Htexts1].
      { rewrite Hw. simpl. destruct (hashable cn); simpl; eauto. }
      destruct (IH w1 _ _ Hrows1 Htexts1)
        as (outcomes & texts' & Hall & Hr & Ht & He).
      exists ((Some row,
               if hashable cn then None
               else Some (failure_message resume (unhashable cn)))
              :: outcomes), texts'.
      split.
      { constructor; [|done]. unfold outcome_of. rewrite Hfetch.
        by exists row. }
      rewrite Hr, Ht, He. simpl. rewrite <- !app_assoc. simpl.
      repeat split; auto.
      rewrite Hw. simpl. rewrite <- app_assoc.
      by destruct (hashable cn).
    + rewrite (process_resume_not_extracted jd_text resume w e Hfetch).
      cbn [snd].
      destruct (IH (report_failure resume e w) rows texts Hrows Htexts)
        as (outcomes & texts' & Hall & Hr & Ht & He).
      exists ((None, Some (failure_message resume e)) :: outcomes), texts'.
      split.
      { constructor; [|done]. unfold outcome_of. by rewrite Hfetch. }
      rewrite Hr, Ht, He. simpl. rewrite <- app_assoc. simpl.
      repeat split; auto.
Qed.

(** A request that fails, in the service or in the decoding of its
    reply, leaves the row "Unknown" and no message. *)
Lemma process_resume_unevaluated (jd_text : string)
    (resume : uploaded_file) (text : string) (w : world) (e : exn)
    (rows : list candidate_entry) (texts : list (pyvalue * string)) :
  fetch_text_content ext resume = Ok text ->
  blank text = false ->
  results (session w) = Some rows ->
  resume_texts (session w) = Some texts ->
  chat_completion ext (ai_calls w) (evaluation_request jd_text text)
  = Raise e
  \/ (exists content,
        chat_completion ext (ai_calls w) (evaluation_request jd_text text)
        = Ok content
        /\ json_loads_content ext content = Raise e) ->
  process_resume ext jd_text resume w = (Ok tt, unevaluated jd_text text w).
Proof.
  intros Hfetch Hblank Hrows Htexts Hfail.
  destruct (process_resume_extracted jd_text resume text w rows texts
              Hfetch Hrows Htexts)
    as (v & sc & ma & sk & ra & cn & em & Hv & Hparse & Hw).
  rewrite perform_resume_evaluation_outcome in Hv by done.
  assert (v = error_dict ("AI evaluation failed: " +:+ exn_msg e)) as ->.
  { destruct Hfail as [Hreply|(content & Hreply & Hjson)];
      rewrite Hreply in Hv; [|rewrite Hjson in Hv]; by injection Hv. }
  rewrite parse_evaluation_error_message in Hparse.
  unfold no_evaluation in Hparse. injection Hparse as <- <- <- <- <- <-.
  rewrite process_resume_run in Hw |- *. f_equal. cbn [snd] in Hw.
  rewrite Hw. unfold unevaluated, rows_of, unknown_row.
  rewrite Hrows, Htexts, Hblank. simpl. by rewrite app_nil_r.
Qed.

(** C1 (amended): the batch loop never raises, and a document that fails
    stops no other: the requests of a batch are those of all its
    documents whose text is extracted and is not blank, in upload order,
    and every document leaves its outcome, a row when its text is
    extracted, the message of the failure under its name when it is not.
    A document whose extraction raises is reported by [st.error] under its
    name and the loop goes on with the next.  A request that fails, in the
    service or in the decoding of its reply, is caught inside
    [perform_resume_evaluation] and is not reported: the document leaves
    the row "Unknown" with score 0, and the loop goes on with the next. *)
Theorem batch_isolation (jd_text : string)
    (before : list uploaded_file) (resume : uploaded_file)
    (after : list uploaded_file) (w : world) :
  let files := before ++ resume :: after in
  let w1 := (process_batch ext jd_text before w).2 in
  let w' := (process_batch ext jd_text files w).2 in
  (process_batch ext jd_text files w).1 = Ok tt
  /\ ai_calls w' = ai_calls w ++ evaluation_requests ext jd_text files
  /\ (forall e,
        fetch_text_content ext resume = Raise e ->
        process_batch ext jd_text files w
        = process_batch ext jd_text after (report_failure resume e w1))
  /\ (forall rows texts,
        results (session w) = Some rows ->
        resume_texts (session w) = Some texts ->
        (exists outcomes : list document_outcome,
           Forall2 (outcome_of ext) files outcomes
           /\ rows_of w' = rows ++ omap fst outcomes
           /\ st_errors w' = st_errors w ++ omap snd outcomes)
        /\ forall text e,
             fetch_text_content ext resume = Ok text ->
             blank text = false ->
             chat_completion ext (ai_calls w1)
               (evaluation_request jd_text text) = Raise e
             \/ (exists content,
                   chat_completion ext (ai_calls w1)
                     (evaluation_request jd_text text) = Ok content
                   /\ json_loads_content ext content = Raise e) ->
             process_batch ext jd_text files w
             = process_batch ext jd_text after
                 (unevaluated jd_text text w1)).
Proof.
  simpl.
  assert (process_batch ext jd_text (before ++ resume :: after) w
          = process_batch ext jd_text after
              (process_resume ext jd_text resume
                 (process_batch ext jd_text before w).2).2) as Hsplit.
  { pose proof (process_batch_ok ext jd_text before w) as Hok.
    unfold process_batch in *. rewrite for_each_app.
    destruct (for_each before _ w) as [r w1]. simpl in *. subst r.
    unfold mbind, M_bind. rewrite process_resume_run. reflexivity. }
  split; [apply process_batch_ok|].
  split; [apply process_batch_requests|].
  split.
  - intros e Hfetch. rewrite Hsplit.
    by rewrite (process_resume_not_extracted _ _ _ e Hfetch).
  - intros rows texts Hrows Htexts. split.
    + destruct (process_batch_outcomes jd_text (before ++ resume :: after)
                  w rows texts Hrows Htexts)
        as (outcomes & texts' & Hall & Hr & _ & He).
      exists outcomes. unfold rows_of. rewrite Hr. auto.
    + intros text e Hfetch Hblank Hfail. rewrite Hsplit.
      destruct (process_batch_outcomes jd_text before w rows texts
                  Hrows Htexts)
        as (outcomes & texts1 & _ & Hr & Ht & _).
      by rewrite (process_resume_unevaluated jd_text resume text _ e _ _
                    Hfetch Hblank Hr Ht Hfail).
Qed.

Lemma length_omap_le {A B} (f : A -> option B) (l : list A) :
  (length (omap f l) <= length l)%nat.
Proof.
  unfold omap. induction l as [|x l IH]; simpl; [lia|].
  destruct (f x); simpl; lia.
Qed.

(** X12: in a batch every uploaded file, in upload order, leaves a row, a
    message of [st.error] under its own name, or the two: a file whose
    extraction raises leaves no row and the message of that failure, any
    other file leaves a row, and the message "unhashable type" with it
    when the row's name cannot be a key.  The rows and the messages of
    the batch are those of its files, in upload order, so there is at
    most one row for each file, every file without a row has its reported
    failure, and a batch that reports nothing has one row for each
    file. *)
Theorem batch_rows_bounded (jd_text : string)
    (files : list uploaded_file) (w : world) :
  let w' := (evaluate_resumes ext jd_text files w).2 in
  exists outcomes : list document_outcome,
    Forall2 (outcome_of ext) files outcomes
    /\ rows_of w' = omap fst outcomes
    /\ st_errors w' = st_errors w ++ omap snd outcomes
    /\ (length (rows_of w') <= length files)%nat
    /\ (omap snd outcomes = [] -> length (rows_of w') = length files).
Proof.
  simpl. destruct (evaluate_resumes_world ext jd_text files w)
    as (Hs & He & _).
  unfold rows_of. rewrite Hs, He.
  match goal with |- context [process_batch ext jd_text files ?w0] =>
    destruct (process_batch_outcomes jd_text files w0 [] [] eq_refl eq_refl)
      as (outcomes & texts' & Hall & Hr & _ & Herr)
  end.
  exists outcomes. rewrite Hr, Herr. simpl.
  assert (length outcomes = length files) as Hlen.
  { symmetry. by eapply Forall2_length. }
  repeat split; auto.
  - rewrite <- Hlen. apply length_omap_le.
  - intros Hnone. rewrite <- Hlen. clear - Hall Hnone.
    induction Hall as [|resume o files outcomes Ho Hall IH]; [done|].
    unfold outcome_of in Ho. simpl in *.
    destruct (fetch_text_content ext resume).
    + destruct Ho as [row ->]. simpl in *.
      destruct (hashable (Candidate_Name row)); [|done]. simpl in *. auto.
    + subst o. done.
Qed.

End BatchOutcomes.

(** ** resume_analysis.py: interview Q&A, continued *)

Section InterviewQARequests.
Context (ext : externals).

(** Generating the Q&A ends normally and adds one request. *)
Lemma generate_interview_qa_world (job_desc resume_content : string)
    (w : world) :
  exists text,
    generate_interview_qa ext job_desc resume_content w
    = (Ok text,
       {| session := session w;
          ai_calls := ai_calls w ++ [qa_request job_desc resume_content];
          st_errors := st_errors w; usage_logs := usage_logs w |}).
Proof.
  unfold generate_interview_qa, try_exceptM.
  unfold mbind, M_bind, ai_call, lift, mret, M_ret.
  destruct (chat_completion ext _ _) as [content|e]; simpl; [|eauto].
  destruct (json_loads_content ext content) as [qa_json|]; simpl; [|eauto].
  destruct (py_get qa_json "questions" (VList [])) as [qs|]; simpl; [|eauto].
  destruct (py_iter qs) as [entries|]; simpl; [|eauto].
  destruct (qa_out_lines ext 0 entries); simpl; eauto.
Qed.

(** X13: every call of [generate_interview_qa] sends exactly one request,
    for a blank resume text too, and changes nothing else; a reply
    without the key "questions", or with an empty list of them, gives the
    empty string. *)
Theorem generate_interview_qa_request (job_desc resume_content : string)
    (w : world) :
  let outcome := generate_interview_qa ext job_desc resume_content w in
  outcome.2
  = {| session := session w;
       ai_calls := ai_calls w ++ [qa_request job_desc resume_content];
       st_errors := st_errors w; usage_logs := usage_logs w |}
  /\ (forall content qa_json,
        chat_completion ext (ai_calls w)
          (qa_request job_desc resume_content) = Ok content ->
        json_loads_content ext content = Ok (VDict qa_json) ->
        qa_json !! "questions" = None
        \/ qa_json !! "questions" = Some (VList []) ->
        outcome.1 = Ok "").
Proof.
  simpl. split.
  - by destruct (generate_interview_qa_world job_desc resume_content w)
      as [text ->].
  - intros content qa_json Hreply Hjson Hq.
    unfold generate_interview_qa, try_exceptM.
    unfold mbind, M_bind, ai_call, lift, mret, M_ret.
    rewrite Hreply. simpl. rewrite Hjson. simpl.
    by destruct Hq as [-> | ->].
Qed.

Lemma qa_out_lines_app_raise (good : list pyvalue) (bad : pyvalue)
    (rest : list pyvalue) (pairs : list (pyvalue * pyvalue)) (idx : nat)
    (e : exn) :
  Forall2 (fun entry qa => py_getitem entry "question" = Ok qa.1
                           /\ py_getitem entry "answer" = Ok qa.2)
          good pairs ->
  (question ← py_getitem bad "question";
   answer ← py_getitem bad "answer"; mret (question, answer)) = Raise e ->
  qa_out_lines ext idx (good ++ bad :: rest) = Raise e.
Proof.
  intros Hgood Hbad. revert idx.
  induction Hgood as [|entry [q a] good pairs [Hq Ha] _ IH]; intros idx.
  - simpl. unfold mbind, result_bind, rbind in *.
    destruct (py_getitem bad "question"); [|by injection Hbad as ->].
    destruct (py_getitem bad "answer"); [done|by injection Hbad as ->].
  - simpl in *. unfold mbind, result_bind, rbind in *. rewrite Hq, Ha.
    by rewrite IH.
Qed.

(** X14: one entry without a "question" or an "answer" spoils the whole
    reply: whatever well-formed entries come before or after it, the
    result is "Error generating interview Q&A: " followed by the name of
    the missing key in quotes, and none of the questions. *)
Theorem generate_interview_qa_all_or_nothing
    (job_desc resume_content : string) (w : world)
    (content : option string) (qa_json : gmap string pyvalue)
    (good : list pyvalue) (bad : gmap string pyvalue) (rest : list pyvalue)
    (pairs : list (pyvalue * pyvalue)) :
  chat_completion ext (ai_calls w) (qa_request job_desc resume_content)
  = Ok content ->
  json_loads_content ext content = Ok (VDict qa_json) ->
  qa_json !! "questions" = Some (VList (good ++ VDict bad :: rest)) ->
  Forall2 (fun entry qa => py_getitem entry "question" = Ok qa.1
                           /\ py_getitem entry "answer" = Ok qa.2)
          good pairs ->
  bad !! "question" = None \/ bad !! "answer" = None ->
  (generate_interview_qa ext job_desc resume_content w).1
  = Ok ("Error generating interview Q&A: '"
        +:+ match bad !! "question" with
             | Some _ => "answer"
             | None => "question"
             end +:+ "'").
Proof.
  intros Hreply Hjson Hq Hgood Hbad.
  unfold generate_interview_qa, try_exceptM.
  unfold mbind at 1. unfold M_bind, ai_call. rewrite Hreply.
  unfold mbind at 1. unfold M_bind, lift. rewrite Hjson.
  unfold mbind at 1. unfold M_bind. simpl py_get. rewrite Hq. simpl default.
  unfold mbind at 1. unfold M_bind. simpl py_iter.
  unfold mbind at 1. unfold M_bind.
  rewrite (qa_out_lines_app_raise good (VDict bad) rest pairs 0
             (Exn KeyError
                ("'" +:+ match bad !! "question" with
             | Some _ => "answer"
             | None => "question"
             end
                 +:+ "'")) Hgood).
  - reflexivity.
  - simpl. unfold mbind, result_bind, rbind.
    destruct (bad !! "question") as [question|]; [|done].
    destruct Hbad as [Hb| ->]; [discriminate|done].
Qed.

End InterviewQARequests.

(** ** resume_analysis.py: the ranking and the selection, continued *)

(** The first row of the ranking has the highest score. *)
Lemma sorted_head_max (rows : list candidate_entry) (top : candidate_entry)
    (rest : list candidate_entry) :
  sorted rows Score true = top :: rest ->
  Forall (fun row => Score row <= Score top) rows.
Proof.
  intros H. destruct (sorted_reverse_spec Score rows) as (Hperm & Hsorted & _).
  rewrite H in Hperm, Hsorted. rewrite <- Hperm.
  apply StronglySorted_cons in Hsorted as [Htop _].
  apply Forall_cons. split; [lia|done].
Qed.

Lemma index_from_spec (x : pyvalue) (l : list pyvalue) (k : nat) :
  match index_from x l k with
  | Some i =>
      exists j y, i = (k + j)%nat /\ l !! j = Some y /\ py_eq y x = true
                  /\ forall j' y', (j' < j)%nat -> l !! j' = Some y' ->
                                   py_eq y' x = false
  | None => existsb (fun y => py_eq y x) l = false
  end.
Proof.
  revert k. induction l as [|y l IH]; intros k; simpl; [done|].
  destruct (py_eq y x) eqn:Hy.
  - exists 0%nat, y. split; [lia|]. split; [done|]. split; [done|].
    intros j' y' Hlt. lia.
  - specialize (IH (S k)). destruct (index_from x l (S k)) as [i|]; [|done].
    destruct IH as (j & z & -> & Hj & Hz & Hbefore).
    exists (S j), z. split; [lia|]. split; [done|]. split; [done|].
    intros [|j'] y' Hlt; simpl; [by intros [= <-]|].
    intros Hy'. apply (Hbefore j' y'); [lia|done].
Qed.

(** X16: when the candidate selected before is among the ranked names,
    the selectbox opens on the first row of that name. *)
Theorem selection_index_found (candidate_names : list pyvalue)
    (previous : pyvalue) :
  truthy previous = true ->
  existsb (fun name => py_eq name previous) candidate_names = true ->
  exists index name,
    selection_index candidate_names previous = Ok index
    /\ candidate_names !! index = Some name
    /\ py_eq name previous = true
    /\ selectbox candidate_names index None = name
    /\ forall earlier name',
         (earlier < index)%nat -> candidate_names !! earlier = Some name' ->
         py_eq name' previous = false.
Proof.
  intros Htruthy Hex. unfold selection_index, list_index. rewrite Htruthy.
  pose proof (index_from_spec previous candidate_names 0) as Hspec.
  destruct (index_from previous candidate_names 0) as [i|]; [|congruence].
  destruct Hspec as (j & y & -> & Hj & Hy & Hbefore). simpl.
  exists j, y. repeat split; auto.
  unfold selectbox. simpl. by rewrite Hj.
Qed.

Lemma dict_get_set (key : pyvalue) (value dflt : string)
    (d : list (pyvalue * string)) :
  py_eq key key = true -> dict_get key dflt (dict_set key value d) = value.
Proof.
  intros Hkey. induction d as [|[k v] d IH]; simpl; [by rewrite Hkey|].
  destruct (py_eq k key) eqn:Hk; simpl; by rewrite Hk.
Qed.

Lemma init_qa_data_results (s : session_state) :
  results (init_qa_data s) = results s.
Proof. unfold init_qa_data. by destruct (qa_data s). Qed.

Lemma init_qa_data_texts (s : session_state) :
  resume_texts (init_qa_data s) = resume_texts s.
Proof. unfold init_qa_data. by destruct (qa_data s). Qed.

Lemma init_qa_data_selected (s : session_state) :
  selected_candidate (init_qa_data s) = selected_candidate s.
Proof. unfold init_qa_data. by destruct (qa_data s). Qed.

Ltac shown H :=
  inversion H; subst; unfold sorted in *; simpl in *;
  rewrite ?init_qa_data_results, ?init_qa_data_texts,
    ?init_qa_data_selected;
  simpl; repeat split; auto;
  solve [ intros; congruence | assumption ].

Section Selection.
Context (ext : externals).

(** What showing the candidates changes: the selection, the Q&A text,
    and the requests when the Q&A button is clicked. *)
Lemma show_candidates_effect (ui : ui_input) (w : world) (r : result unit)
    (w' : world) :
  show_candidates ext ui w = (r, w') ->
  st_errors w' = st_errors w
  /\ usage_logs w' = usage_logs w
  /\ results (session w') = results (session w)
  /\ resume_texts (session w') = resume_texts (session w)
  /\ (create_qa_clicked ui = false -> ai_calls w' = ai_calls w)
  /\ (forall rows previous index,
        results (session w) = Some rows -> rows <> [] ->
        selected_candidate (session w) = Some previous ->
        selection_index (map Candidate_Name (sorted rows Score true)) previous
        = Ok index ->
        selected_candidate (session w')
        = Some (selectbox (map Candidate_Name (sorted rows Score true))
                  index (selectbox_pick ui))).
Proof.
  intros H. unfold show_candidates in H.
  unfold mbind, M_bind, session_attr, modify_session, lift in H.
  destruct (results (session w)) as [rows|] eqn:Hrows; [|shown H].
  destruct rows as [|row rows]; [shown H|].
  cbv beta iota delta [nonempty] in H.
  destruct (selected_candidate (session w)) as [previous|] eqn:Hprev;
    [|shown H].
  destruct (selection_index _ previous) as [index|] eqn:Hindex; [|shown H].
  simpl in H.
  assert (forall rows0 previous0 index0,
            Some (row :: rows) = Some rows0 -> rows0 <> [] ->
            Some previous = Some previous0 ->
            selection_index
              (map Candidate_Name (sorted rows0 Score true)) previous0
            = Ok index0 ->
            Some (selectbox
                    (map Candidate_Name (sorted (row :: rows) Score true))
                    index (selectbox_pick ui))
            = Some (selectbox
                      (map Candidate_Name (sorted rows0 Score true))
                      index0 (selectbox_pick ui))) as Hsel.
  { intros ? ? ? [= <-] _ [= <-] Hi. congruence. }
  destruct (truthy (selectbox _ index (selectbox_pick ui))); [|shown H].
  simpl in H. rewrite init_qa_data_texts in H. simpl in H.
  destruct (resume_texts (session w)) as [texts|] eqn:Htexts; simpl in H;
    [|shown H].
  destruct (hashable _); simpl in H; [|shown H].
  destruct (negb _); [|shown H].
  destruct (button (create_qa_clicked ui) false) eqn:Hbutton; [|shown H].
  match type of H with
  | context [generate_interview_qa ext ?a ?b ?w0] =>
      destruct (generate_interview_qa_world ext a b w0) as [text Hgen];
      rewrite Hgen in H
  end.
  unfold button in Hbutton. rewrite andb_true_r in Hbutton.
  shown H.
Qed.

End Selection.

Lemma init_stores_rows (s : session_state) :
  default [] (results (init_stores s)) = default [] (results s).
Proof.
  unfold init_stores.
  destruct (results s) eqn:Hr; simpl;
    destruct (resume_texts s); simpl;
    destruct (qa_output s); simpl;
    destruct (selected_candidate s); simpl; by rewrite ?Hr.
Qed.

Section Dashboard_runs.
Context (ext : externals).

(** X17: a run of the dashboard in which "Evaluate Resumes" is not
    clicked, or is disabled because the job description is empty or no
    file is uploaded, and in which the Q&A button is not clicked, sends
    no request, logs no usage, reports no error and leaves the rows as
    they were. *)
Theorem dashboard_idle (ui : ui_input) (w : world) :
  evaluate_clicked ui = false \/ jd_text ui = "" \/ upload_files ui = [] ->
  create_qa_clicked ui = false ->
  let w' := (display_resume_dashboard ext ui w).2 in
  ai_calls w' = ai_calls w /\ usage_logs w' = usage_logs w
  /\ st_errors w' = st_errors w /\ rows_of w' = rows_of w.
Proof.
  intros Hidle Hqa.
  destruct (display_resume_dashboard ext ui w) as [r w'] eqn:H.
  unfold display_resume_dashboard in H.
  assert (button (evaluate_clicked ui)
            (negb (truthy (VStr (jd_text ui))
                   && nonempty (upload_files ui))) = false) as Hbutton.
  { unfold button. destruct Hidle as [-> | [-> | ->]]; [done| |].
    - simpl. apply andb_false_r.
    - simpl. rewrite andb_false_r. simpl. apply andb_false_r. }
  rewrite Hbutton in H.
  unfold mbind, M_bind, modify_session, mret, M_ret in H.
  apply show_candidates_effect in H as (He & Hu & Hr & _ & Hcalls & _).
  simpl in *. unfold rows_of. rewrite Hr, init_stores_rows. auto.
Qed.

(** X18: when no candidate has been selected so far and the user picks
    none, showing the candidates selects the first of the ranking, whose
    score no other row exceeds. *)
Theorem first_selection_top (ui : ui_input) (w : world)
    (rows : list candidate_entry) (previous : pyvalue) :
  results (session w) = Some rows -> rows <> [] ->
  selected_candidate (session w) = Some previous ->
  truthy previous = false ->
  selectbox_pick ui = None ->
  exists top rest,
    sorted rows Score true = top :: rest
    /\ selected_candidate (session (show_candidates ext ui w).2)
       = Some (Candidate_Name top)
    /\ Forall (fun row => Score row <= Score top) rows.
Proof.
  intros Hrows Hne Hprev Hfalsy Hpick.
  destruct (show_candidates ext ui w) as [r w'] eqn:H.
  apply show_candidates_effect in H as (_ & _ & _ & _ & _ & Hsel).
  specialize (Hsel rows previous 0%nat Hrows Hne Hprev
                (selection_index_unset _ _ Hfalsy)).
  destruct (sorted rows Score true) as [|top rest] eqn:Hsorted.
  - destruct (sorted_reverse_spec Score rows) as (Hperm & _).
    rewrite Hsorted in Hperm. by apply Permutation_nil in Hperm.
  - exists top, rest. split; [done|]. split.
    + simpl. rewrite Hsel, Hpick. reflexivity.
    + by apply (sorted_head_max rows top rest).
Qed.

(** X19: a document processed without failure leaves one more row, and
    when the candidate name of that row is a string, the resume texts
    hold the document's extracted text under that name, replacing any text
    kept under it before. *)
Theorem processed_text_kept (jd_text : string) (resume : uploaded_file)
    (w w' : world) :
  process_resume_body ext jd_text resume w = (Ok tt, w') ->
  exists text row texts',
    fetch_text_content ext resume = Ok text
    /\ rows_of w' = rows_of w ++ [row]
    /\ resume_texts (session w') = Some texts'
    /\ forall candidate,
         Candidate_Name row = VStr candidate ->
         dict_get (VStr candidate) "" texts' = text.
Proof.
  intros H. unfold process_resume_body in H.
  unfold mbind, M_bind, lift, session_attr, modify_session in H.
  destruct (fetch_text_content ext resume) as [text|e]; [|by inversion H].
  destruct (perform_resume_evaluation_effect ext jd_text text w)
    as (v & w1 & Hrun & Hs & _).
  rewrite Hrun in H. unfold rows_of. rewrite <- Hs.
  destruct (parse_evaluation ext v) as [[[[[[sc ma] sk] ra] cn] em]|e];
    [|by inversion H].
  destruct (results (session w1)) as [rows|]; [|by inversion H].
  simpl in H.
  destruct (resume_texts (session w1)) as [texts|]; [|by inversion H].
  destruct (hashable cn); [|by inversion H].
  inversion H; subst. simpl.
  eexists text, _, _. repeat split.
  intros candidate [= ->]. apply dict_get_set. simpl. apply String.eqb_refl.
Qed.

End Dashboard_runs.

Section Requests.
Context (ext : externals).

(** One turn of the loop sends no request, or one evaluation request
    for the batch's job description. *)
Lemma process_resume_calls (jd_text : string) (resume : uploaded_file)
    (w : world) :
  let w' := (process_resume ext jd_text resume w).2 in
  ai_calls w' = ai_calls w
  \/ exists text, ai_calls w' = ai_calls w ++ [evaluation_request jd_text text].
Proof.
  simpl. destruct (process_resume ext jd_text resume w) as [r w'] eqn:H.
  cbn [snd]. rewrite process_resume_run in H.
  unfold process_resume_body in H.
  unfold mbind, M_bind, lift, session_attr, modify_session in H.
  destruct (fetch_text_content ext resume) as [text|e];
    [|inversion H; subst; by left].
  assert (ai_calls (perform_resume_evaluation ext jd_text text w).2
          = ai_calls w
          \/ ai_calls (perform_resume_evaluation ext jd_text text w).2
             = ai_calls w ++ [evaluation_request jd_text text]) as Hcalls.
  { destruct (blank text) eqn:Hblank.
    - left. by rewrite perform_resume_evaluation_blank.
    - right. by apply perform_resume_evaluation_calls. }
  destruct (perform_resume_evaluation_effect ext jd_text text w)
    as (v & w1 & Hrun & _).
  rewrite Hrun in H, Hcalls. simpl in Hcalls.
  assert (ai_calls w' = ai_calls w1) as ->; [|destruct Hcalls; eauto].
  destruct (parse_evaluation ext v) as [[[[[[sc ma] sk] ra] cn] em]|e];
    [|by inversion H].
  destruct (results (session w1)) as [rows|]; [|by inversion H].
  simpl in H.
  destruct (resume_texts (session w1)) as [texts|]; [|by inversion H].
  destruct (hashable cn); by inversion H.
Qed.

Lemma process_batch_calls (jd_text : string) (files : list uploaded_file)
    (w : world) :
  exists requests,
    ai_calls (process_batch ext jd_text files w).2 = ai_calls w ++ requests
    /\ (length requests <= length files)%nat
    /\ Forall (fun request =>
                 exists text, request = evaluation_request jd_text text)
         requests.
Proof.
  revert w. induction files as [|resume files IH]; intros w.
  - exists []. simpl. by rewrite app_nil_r.
  - rewrite process_batch_cons.
    destruct (IH (process_resume ext jd_text resume w).2)
      as (requests & -> & Hlen & Hall).
    destruct (process_resume_calls jd_text resume w) as [-> | [text ->]].
    + exists requests. simpl. split; [done|]. split; [lia|done].
    + exists (evaluation_request jd_text text :: requests).
      rewrite <- app_assoc. simpl. split; [done|]. split; [lia|].
      constructor; eauto.
Qed.

(** X20: a batch sends at most one request for each uploaded file, and
    every request it sends is an evaluation request for the batch's job
    description: the model gpt-4o-mini-2024-07-18, temperature 0, at most
    1000 tokens, a JSON object asked for. *)
Theorem batch_requests_bounded (jd_text : string)
    (files : list uploaded_file) (w : world) :
  exists requests,
    ai_calls (evaluate_resumes ext jd_text files w).2 = ai_calls w ++ requests
    /\ (length requests <= length files)%nat
    /\ Forall (fun request =>
                 model request = "gpt-4o-mini-2024-07-18"
                 /\ max_tokens request = 1000
                 /\ temperature request = 0%Q
                 /\ response_format request = "json_object"
                 /\ exists text,
                      user_content request = evaluation_prompt jd_text text)
         requests.
Proof.
  destruct (evaluate_resumes_world ext jd_text files w) as (_ & _ & ->).
  match goal with |- context [process_batch ext jd_text files ?w0] =>
    destruct (process_batch_calls jd_text files w0)
      as (requests & -> & Hlen & Hall)
  end.
  exists requests. simpl. split; [done|]. split; [done|].
  eapply Forall_impl; [exact Hall|]. intros request [text ->]. simpl.
  repeat split. by exists text.
Qed.

(** X21: a reply whose "Candidate Name" is a list or a dict leaves its
    row in the results and is reported as failed as well: the row is
    appended before the name is used as a key of the resume texts, which
    raises "unhashable type"; no text is kept for that row. *)
Theorem unhashable_name_row_and_error (jd_text : string)
    (resume : uploaded_file) (text : string) (w : world)
    (rows : list candidate_entry) (texts : list (pyvalue * string))
    (content : option string) (d : gmap string pyvalue) (score : Z)
    (candidate : pyvalue) :
  fetch_text_content ext resume = Ok text ->
  blank text = false ->
  results (session w) = Some rows ->
  resume_texts (session w) = Some texts ->
  chat_completion ext (ai_calls w) (evaluation_request jd_text text)
  = Ok content ->
  json_loads_content ext content = Ok (VDict d) ->
  d !! "error" = None ->
  py_int ext (default (VInt 0) (d !! "Score")) = Ok score ->
  d !! "Candidate Name" = Some candidate ->
  hashable candidate = false ->
  let w' := (process_resume ext jd_text resume w).2 in
  results (session w')
  = Some (rows ++ [ {| Candidate_Name := candidate;
                       Email := default (VStr "N/A") (d !! "Email");
                       Score := score;
                       Match := default (VStr "No") (d !! "Match");
                       Skills_Found :=
                         default (VList []) (d !! "Skills Found");
                       Rationale :=
                         default (VStr "No explanation provided.")
                           (d !! "Rationale") |} ])
  /\ resume_texts (session w') = Some texts
  /\ st_errors w'
     = st_errors w
       ++ ["Failed to process " +:+ name resume +:+ ": unhashable type: '"
           +:+ type_name candidate +:+ "'"].
Proof.
  intros Hfetch Hblank Hrows Htexts Hreply Hjson Herr Hscore Hname Hhash.
  destruct (process_resume ext jd_text resume w) as [r w'] eqn:H.
  rewrite process_resume_run in H. unfold process_resume_body in H.
  unfold mbind at 1 in H. unfold M_bind, lift in H. rewrite Hfetch in H.
  unfold mbind at 1 in H. unfold M_bind in H.
  pose proof (perform_resume_evaluation_outcome ext jd_text text w Hblank)
    as Hout.
  rewrite Hreply, Hjson in Hout.
  destruct (perform_resume_evaluation_effect ext jd_text text w)
    as (v & w1 & Hrun & Hs & He & _).
  rewrite Hrun in Hout, H. simpl in Hout. injection Hout as ->.
  unfold mbind at 1 in H. unfold M_bind, lift in H.
  assert (parse_evaluation ext (VDict d)
          = Ok (score, default (VStr "No") (d !! "Match"),
                default (VList []) (d !! "Skills Found"),
                default (VStr "No explanation provided.") (d !! "Rationale"),
                candidate, default (VStr "N/A") (d !! "Email"))) as Hparse.
  { unfold parse_evaluation, try_except. simpl. rewrite Herr. simpl.
    unfold mbind, result_bind, rbind. rewrite Hscore, Hname. reflexivity. }
  rewrite Hparse in H.
  unfold mbind at 1 in H. unfold M_bind, session_attr in H.
  rewrite Hs, Hrows in H.
  unfold mbind, M_bind, modify_session in H. simpl in H.
  rewrite Hs, Htexts, Hhash in H. simpl in H.
  injection H as _ <-. simpl. rewrite Htexts, He. done.
Qed.

(** X22: for a selected candidate whose kept text is empty or missing,
    as it is for the "Unknown" row of a blank document, showing the
    candidates sends no Q&A request, also when the button is clicked. *)
Theorem no_qa_without_text (ui : ui_input) (w : world)
    (rows : list candidate_entry) (previous : pyvalue) (index : nat)
    (texts : list (pyvalue * string)) :
  results (session w) = Some rows ->
  selected_candidate (session w) = Some previous ->
  resume_texts (session w) = Some texts ->
  let candidate_names := map Candidate_Name (sorted rows Score true) in
  selection_index candidate_names previous = Ok index ->
  dict_get (selectbox candidate_names index (selectbox_pick ui)) "" texts
  = "" ->
  ai_calls (show_candidates ext ui w).2 = ai_calls w.
Proof.
  intros Hrows Hprev Htexts names Hindex Hget. subst names.
  destruct (show_candidates ext ui w) as [r w'] eqn:H.
  unfold show_candidates in H.
  unfold mbind, M_bind, session_attr, modify_session, lift in H.
  rewrite Hrows in H. destruct rows as [|row rows]; [by inversion H|].
  cbv beta iota delta [nonempty] in H. rewrite Hprev, Hindex in H.
  simpl in H.
  destruct (truthy (selectbox _ index (selectbox_pick ui)));
    [|by inversion H].
  simpl in H. rewrite init_qa_data_texts in H. simpl in H.
  rewrite Htexts in H. simpl in H.
  destruct (hashable _); simpl in H; [|by inversion H].
  unfold sorted in Hget. simpl in Hget. rewrite Hget in H. simpl in H.
  by inversion H.
Qed.

End Requests.

Lemma py_eq_str_r (x : pyvalue) (s : string) :
  py_eq x (VStr s) = true -> x = VStr s.
Proof.
  destruct x; simpl; try discriminate.
  intros H. apply String.eqb_eq in H. by subst.
Qed.

Lemma py_eq_str_l (x : pyvalue) (s : string) :
  py_eq (VStr s) x = true -> x = VStr s.
Proof.
  destruct x; simpl; try discriminate.
  intros H. apply String.eqb_eq in H. by subst.
Qed.

Lemma dict_get_set_other (key : pyvalue) (other value dflt : string)
    (d : list (pyvalue * string)) :
  key <> VStr other ->
  dict_get (VStr other) dflt (dict_set key value d)
  = dict_get (VStr other) dflt d.
Proof.
  intros Hne.
  assert (py_eq key (VStr other) = false) as Hkey.
  { destruct (py_eq key (VStr other)) eqn:H; [|done].
    by apply py_eq_str_r in H. }
  induction d as [|[k v] d IH]; simpl; [by rewrite Hkey|].
  destruct (py_eq k key) eqn:Hk; simpl; [|by rewrite IH].
  destruct (py_eq k (VStr other)) eqn:Hko; [|done].
  apply py_eq_str_r in Hko as ->. by apply py_eq_str_l in Hk.
Qed.

Section BatchStores.
Context (ext : externals).

(** X15: a document whose reader raises, a PDF that pdfplumber cannot
    open, a DOCX that python-docx rejects, a text file that is not UTF-8,
    is reported under its name with the reader's message, and nothing else
    happens for it: no request, no row, no text kept. *)
Theorem extraction_failure_reported (jd_text : string)
    (resume : uploaded_file) (w : world) (e : exn) :
  type resume = "application/pdf" /\ pdf_pages ext (data resume) = Raise e
  \/ (type resume = "application/msword"
      \/ type resume
         = "application/vnd.openxmlformats-officedocument.wordprocessingml.document")
     /\ docx_paragraphs ext (data resume) = Raise e
  \/ type resume = "text/plain" /\ utf8_decode ext (data resume) = Raise e ->
  process_resume ext jd_text resume w
  = (Ok tt,
     {| session := session w; ai_calls := ai_calls w;
        st_errors :=
          st_errors w
          ++ ["Failed to process " +:+ name resume +:+ ": " +:+ exn_msg e];
        usage_logs := usage_logs w |}).
Proof.
  intros Hcase.
  assert (fetch_text_content ext resume = Raise e) as Hfetch.
  { unfold fetch_text_content, get_pdf_content, get_docx_content,
      get_txt_content.
    unfold mbind, result_bind, rbind.
    destruct Hcase as [[-> ->] | [[[-> | ->] ->] | [-> ->]]]; reflexivity. }
  rewrite process_resume_run. unfold process_resume_body.
  unfold mbind at 1. unfold M_bind, lift. rewrite Hfetch. reflexivity.
Qed.

(** X23: the batch loop only appends: the rows that were there stay in
    place and in order, and at most one row for each file comes after
    them. *)
Theorem batch_rows_append_only (jd_text : string)
    (files : list uploaded_file) (w : world) :
  exists added,
    rows_of (process_batch ext jd_text files w).2 = rows_of w ++ added
    /\ (length added <= length files)%nat.
Proof.
  revert w. induction files as [|resume files IH]; intros w.
  - exists []. simpl. by rewrite app_nil_r.
  - rewrite process_batch_cons.
    destruct (IH (process_resume ext jd_text resume w).2)
      as (added & -> & Hlen).
    destruct (process_resume_effect ext jd_text resume w)
      as (_ & _ & _ & [[_ [row ->]] | (e & _ & [-> | [row ->]])]).
    + exists (row :: added). rewrite <- app_assoc. simpl. split; [done|lia].
    + exists added. simpl. split; [done|lia].
    + exists (row :: added). rewrite <- app_assoc. simpl. split; [done|lia].
Qed.

(** X24: a document processed without failure changes the text kept
    under its own candidate name only: the text kept under every other
    name that is a string stays as it was. *)
Theorem other_texts_kept (jd_text : string) (resume : uploaded_file)
    (w w' : world) (texts : list (pyvalue * string)) :
  process_resume_body ext jd_text resume w = (Ok tt, w') ->
  resume_texts (session w) = Some texts ->
  exists row texts',
    rows_of w' = rows_of w ++ [row]
    /\ resume_texts (session w') = Some texts'
    /\ forall other dflt,
         Candidate_Name row <> VStr other ->
         dict_get (VStr other) dflt texts' = dict_get (VStr other) dflt texts.
Proof.
  intros H Htexts. unfold process_resume_body in H.
  unfold mbind, M_bind, lift, session_attr, modify_session in H.
  destruct (fetch_text_content ext resume) as [text|e]; [|by inversion H].
  destruct (perform_resume_evaluation_effect ext jd_text text w)
    as (v & w1 & Hrun & Hs & _).
  rewrite Hrun in H. unfold rows_of. rewrite <- Hs in *.
  destruct (parse_evaluation ext v) as [[[[[[sc ma] sk] ra] cn] em]|e];
    [|by inversion H].
  destruct (results (session w1)) as [rows|]; [|by inversion H].
  simpl in H. rewrite Htexts in H.
  destruct (hashable cn); [|by inversion H].
  inversion H; subst. simpl.
  eexists _, _. repeat split.
  intros other dflt Hne. by apply dict_get_set_other.
Qed.

(** What [generate_interview_qa] returns depends on the world through
    the requests made so far only. *)
Lemma generate_interview_qa_history (job_desc resume_content : string)
    (w w0 : world) :
  ai_calls w0 = ai_calls w ->
  (generate_interview_qa ext job_desc resume_content w0).1
  = (generate_interview_qa ext job_desc resume_content w).1.
Proof.
  intros H. unfold generate_interview_qa, try_exceptM.
  unfold mbind, M_bind, ai_call, lift, mret, M_ret. rewrite H.
  destruct (chat_completion ext _ _) as [content|e]; simpl; [|done].
  destruct (json_loads_content ext content) as [qa_json|]; simpl; [|done].
  destruct (py_get qa_json "questions" (VList [])) as [qs|]; simpl; [|done].
  destruct (py_iter qs) as [entries|]; simpl; [|done].
  by destruct (qa_out_lines ext 0 entries).
Qed.

(** X25: with the Q&A button clicked and a text kept for the selected
    candidate, showing the candidates sends one Q&A request, made of the
    job description in the text area and the text kept for that candidate,
    and stores as the Q&A the very string [generate_interview_qa] returns
    for them; the selection is recorded, and nothing else changes. *)
Theorem qa_click_request (ui : ui_input) (w : world)
    (rows : list candidate_entry) (previous : pyvalue) (index : nat)
    (texts : list (pyvalue * string)) :
  results (session w) = Some rows ->
  selected_candidate (session w) = Some previous ->
  resume_texts (session w) = Some texts ->
  let candidate_names := map Candidate_Name (sorted rows Score true) in
  let selected := selectbox candidate_names index (selectbox_pick ui) in
  let candidate_resume := dict_get selected "" texts in
  selection_index candidate_names previous = Ok index ->
  truthy selected = true ->
  hashable selected = true ->
  candidate_resume <> "" ->
  create_qa_clicked ui = true ->
  exists qa,
    (generate_interview_qa ext (jd_text ui) candidate_resume w).1 = Ok qa
    /\ (show_candidates ext ui w).2
       = {| session :=
              set_qa_data (VStr qa)
                (init_qa_data (set_selected_candidate selected (session w)));
            ai_calls :=
              ai_calls w ++ [qa_request (jd_text ui) candidate_resume];
            st_errors := st_errors w;
            usage_logs := usage_logs w |}.
Proof.
  intros Hrows Hprev Htexts names selected resume Hindex Htruthy Hhash Hget
    Hclick.
  subst names selected resume.
  destruct (show_candidates ext ui w) as [r w'] eqn:H. cbn [snd].
  unfold show_candidates in H.
  unfold mbind, M_bind, session_attr, modify_session, lift in H.
  rewrite Hrows in H. destruct rows as [|row rows].
  { unfold sorted, selectbox in Htruthy. simpl in Htruthy.
    by destruct (selectbox_pick ui). }
  cbv beta iota delta [nonempty] in H. rewrite Hprev, Hindex in H.
  simpl in H. unfold sorted in Htruthy, Hhash, Hget |- *.
  simpl in Htruthy, Hhash, Hget |- *. rewrite Htruthy in H.
  simpl in H. rewrite init_qa_data_texts in H. simpl in H.
  rewrite Htexts, Hhash in H. simpl in H.
  apply String.eqb_neq in Hget. rewrite Hget in H. simpl in H.
  unfold button in H. rewrite Hclick in H. simpl in H.
  match type of H with
  | context [generate_interview_qa ext ?a ?b ?w0] =>
      pose proof (generate_interview_qa_history a b w w0 eq_refl) as Hsame;
      destruct (generate_interview_qa_world ext a b w0) as [text Hgen];
      rewrite Hgen in H, Hsame
  end.
  exists text. split; [done|].
  inversion H; subst. reflexivity.
Qed.

End BatchStores.

(** * The further properties on concrete runs *)

(** [contact_email_shape] on a resume header. *)
Lemma contact_email_shape_witness :
  exists pre post local domain suffix,
    contact_text = pre +:+ "jane.doe@x.com." +:+ post
    /\ "jane.doe@x.com." = local +:+ "@" +:+ domain +:+ "." +:+ suffix
    /\ local <> ""
    /\ forallb email_local_char (list_ascii_of_string local) = true
    /\ domain <> ""
    /\ forallb email_domain_char (list_ascii_of_string domain) = true
    /\ suffix <> ""
    /\ forallb email_suffix_char (list_ascii_of_string suffix) = true.
Proof.
  apply (contact_email_shape contact_text "jane.doe@x.com.").
  reflexivity.
Defined.

(** [contact_email_none] on a text without "@". *)
Lemma contact_email_none_witness :
  (retrieve_contact_details "Jane Doe").2 = None.
Proof.
  apply (proj2 (contact_email_none "Jane Doe")).
  simpl. repeat (constructor; [discriminate|]). constructor.
Defined.

(** [contact_email_first_longest] on a resume header: the period after
    the address belongs to what is returned. *)
Lemma contact_email_first_longest_witness :
  exists pre post,
    contact_text = pre +:+ "jane.doe@x.com." +:+ post
    /\ (forall pre1 pre2 m post',
          pre = pre1 +:+ pre2 -> pre2 <> "" -> matches email_pattern m ->
          pre2 +:+ "jane.doe@x.com." +:+ post <> m +:+ post')
    /\ (forall c post', post = String c post' -> email_suffix_char c = false).
Proof.
  apply (contact_email_first_longest contact_text "jane.doe@x.com.").
  reflexivity.
Defined.

(** [fetch_text_content_trimmed] on a text file with spaces around its
    text. *)
Lemma fetch_text_content_trimmed_witness :
  strip "Jane Doe" = "Jane Doe"
  /\ (forall c t, "Jane Doe" = String c t -> is_space c = false)
  /\ (forall init c, "Jane Doe" = init +:+ String c "" -> is_space c = false).
Proof.
  apply (fetch_text_content_trimmed (jane_service 0)
           (txt_file "jane.txt" "  Jane Doe  ") "Jane Doe").
  reflexivity.
Defined.

(** [fetch_text_content_blank] on a PDF, a DOCX and a text file of three
    spaces. *)
Lemma fetch_text_content_blank_witness :
  fetch_text_content (jane_service 0) (blank_file "scan.pdf" "application/pdf")
  = Ok ""
  /\ fetch_text_content (jane_service 0)
       (blank_file "cv.doc" "application/msword") = Ok ""
  /\ fetch_text_content (jane_service 0) (blank_file "cv.txt" "text/plain")
     = Ok "".
Proof.
  split; [|split].
  - apply (proj1 (fetch_text_content_blank (jane_service 0)
                    (blank_file "scan.pdf" "application/pdf"))
             eq_refl [Some "   "]); [reflexivity|].
    repeat constructor.
  - apply (proj1 (proj2 (fetch_text_content_blank (jane_service 0)
                           (blank_file "cv.doc" "application/msword")))
             (or_introl eq_refl) ["   "]); [reflexivity|].
    repeat constructor.
  - apply (proj2 (proj2 (fetch_text_content_blank (jane_service 0)
                           (blank_file "cv.txt" "text/plain")))
             eq_refl "   "); reflexivity.
Defined.

(** [perform_resume_evaluation_failures] on a service that is down, on a
    reply that is no JSON, and on the spec's example reply. *)
Lemma perform_resume_evaluation_failures_witness :
  (perform_resume_evaluation no_service "Python developer" "Jane Doe"
     logged_in_world).1
  = Ok (error_dict "AI evaluation failed: Connection error.")
  /\ (perform_resume_evaluation garbled_service "Python developer" "Jane Doe"
        logged_in_world).1
     = Ok (error_dict
             "AI evaluation failed: Expecting value: line 1 column 1 (char 0)")
  /\ (perform_resume_evaluation (jane_service 1) "Python developer"
        "Jane Doe" logged_in_world).1
     = Ok jane_value.
Proof.
  split; [|split].
  - apply (proj1 (perform_resume_evaluation_failures no_service
                    "Python developer" "Jane Doe" logged_in_world eq_refl)
             (Exn (LibraryError "APIConnectionError") "Connection error.")).
    reflexivity.
  - apply (proj1 (proj2 (perform_resume_evaluation_failures garbled_service
                           "Python developer" "Jane Doe" logged_in_world
                           eq_refl))
             (Some "Sorry, I cannot help.")
             (Exn (LibraryError "JSONDecodeError")
                "Expecting value: line 1 column 1 (char 0)"));
      reflexivity.
  - apply (proj2 (proj2 (perform_resume_evaluation_failures (jane_service 1)
                           "Python developer" "Jane Doe" logged_in_world
                           eq_refl))
             (Some jane_reply) jane_value); reflexivity.
Defined.

(** [parse_evaluation_not_a_dict] on a reply that is a JSON string. *)
Lemma parse_evaluation_not_a_dict_witness :
  exists rationale,
    parse_evaluation (jane_service 0) (VStr "An error occurred")
    = Ok (0, VStr "No", VList [], VStr rationale, VStr "Unknown", VStr "N/A")
    /\ (py_contains "error" (VStr "An error occurred") = Ok true ->
        rationale = "").
Proof.
  apply (parse_evaluation_not_a_dict (jane_service 0)
           (VStr "An error occurred")).
  intros d. discriminate.
Defined.

(** [parse_evaluation_fields] on a reply with the score 250. *)
Lemma parse_evaluation_fields_witness :
  parse_evaluation (jane_service 0)
    (VDict (candidate_fields (VStr "Jane Doe") (VInt 250)))
  = Ok (250, VStr "Yes", VList [VStr "Python"], VStr "Fit", VStr "Jane Doe",
        VStr "c@x.com").
Proof.
  apply (parse_evaluation_fields (jane_service 0)
           (candidate_fields (VStr "Jane Doe") (VInt 250)) 250);
    reflexivity.
Defined.

(** [unevaluated_resume_row] on a service that is down. *)
Lemma unevaluated_resume_row_witness :
  let w' :=
    (process_resume no_service "Python developer"
       (txt_file "jane.txt" "Jane Doe") ready_world).2 in
  results (session w') = Some ([] ++ [unknown_row])
  /\ resume_texts (session w')
     = Some (dict_set (VStr "Unknown") "Jane Doe" [])
  /\ st_errors w' = st_errors ready_world.
Proof.
  apply (unevaluated_resume_row no_service "Python developer"
           (txt_file "jane.txt" "Jane Doe") "Jane Doe" ready_world [] []).
  - reflexivity.
  - reflexivity.
  - reflexivity.
  - right. eexists. reflexivity.
Defined.

(** [batch_rows_bounded] on a batch of two files that both succeed. *)
Lemma batch_rows_bounded_witness :
  length
    (rows_of
       (evaluate_resumes (jane_service 2) "Python developer"
          [alice_cv; carol_cv] logged_in_world).2)
  = 2%nat.
Proof.
  destruct (batch_rows_bounded (jane_service 2) "Python developer"
              [alice_cv; carol_cv] logged_in_world)
    as (outcomes & _ & _ & Herr & _ & Hall).
  apply Hall.
  assert (st_errors
            (evaluate_resumes (jane_service 2) "Python developer"
               [alice_cv; carol_cv] logged_in_world).2 = []) as Hnone.
  { vm_compute. reflexivity. }
  rewrite Hnone in Herr. simpl in Herr. by symmetry.
Defined.

(** [generate_interview_qa_request] on a reply without "questions". *)
Lemma generate_interview_qa_request_witness :
  (generate_interview_qa empty_qa_service "Python developer" "Jane Doe"
     logged_in_world).1
  = Ok "".
Proof.
  apply (proj2 (generate_interview_qa_request empty_qa_service
                  "Python developer" "Jane Doe" logged_in_world)
           (Some "empty.json") ∅).
  - reflexivity.
  - reflexivity.
  - left. reflexivity.
Defined.

(** [generate_interview_qa_all_or_nothing] on a reply whose second
    question has no answer. *)
Lemma generate_interview_qa_all_or_nothing_witness :
  (generate_interview_qa qa_half_service "Python developer" "Jane Doe"
     logged_in_world).1
  = Ok "Error generating interview Q&A: 'answer'".
Proof.
  apply (generate_interview_qa_all_or_nothing qa_half_service
           "Python developer" "Jane Doe" logged_in_world
           (Some "half.json") qa_half_fields
           [qa_entry "What is a list?" "An ordered sequence."]
           question_only []
           [(VStr "What is a list?", VStr "An ordered sequence.")]).
  - reflexivity.
  - reflexivity.
  - reflexivity.
  - repeat constructor.
  - right. reflexivity.
Defined.

(** [selection_index_found] with Alice selected and ranked second. *)
Lemma selection_index_found_witness :
  exists index name,
    selection_index [VStr "Carol Jones"; VStr "Alice Smith"]
      (VStr "Alice Smith") = Ok index
    /\ [VStr "Carol Jones"; VStr "Alice Smith"] !! index = Some name
    /\ py_eq name (VStr "Alice Smith") = true
    /\ selectbox [VStr "Carol Jones"; VStr "Alice Smith"] index None = name
    /\ forall earlier name',
         (earlier < index)%nat ->
         [VStr "Carol Jones"; VStr "Alice Smith"] !! earlier = Some name' ->
         py_eq name' (VStr "Alice Smith") = false.
Proof.
  apply (selection_index_found [VStr "Carol Jones"; VStr "Alice Smith"]
           (VStr "Alice Smith")); reflexivity.
Defined.

(** [dashboard_idle] on a run without a click. *)
Lemma dashboard_idle_witness :
  let w' :=
    (display_resume_dashboard (jane_service 1) (rerun [alice_cv])
       logged_in_world).2 in
  ai_calls w' = ai_calls logged_in_world
  /\ usage_logs w' = usage_logs logged_in_world
  /\ st_errors w' = st_errors logged_in_world
  /\ rows_of w' = rows_of logged_in_world.
Proof.
  apply (dashboard_idle (jane_service 1) (rerun [alice_cv]) logged_in_world).
  - left. reflexivity.
  - reflexivity.
Defined.

(** [first_selection_top] on two rows, the second with the higher
    score. *)
Lemma first_selection_top_witness :
  exists top rest,
    sorted [scored "Ann" 40; scored "Bob" 90] Score true = top :: rest
    /\ selected_candidate
         (session
            (show_candidates (jane_service 0) (rerun [])
               (world_with [scored "Ann" 40; scored "Bob" 90] [])).2)
       = Some (Candidate_Name top)
    /\ Forall (fun row => Score row <= Score top)
         [scored "Ann" 40; scored "Bob" 90].
Proof.
  apply (first_selection_top (jane_service 0) (rerun [])
           (world_with [scored "Ann" 40; scored "Bob" 90] [])
           [scored "Ann" 40; scored "Bob" 90] VNone).
  - reflexivity.
  - discriminate.
  - reflexivity.
  - reflexivity.
  - reflexivity.
Defined.

(** [processed_text_kept] on the spec's example reply. *)
Lemma processed_text_kept_witness :
  exists text row texts',
    fetch_text_content (jane_service 1) (txt_file "jane.txt" "Jane Doe")
    = Ok text
    /\ rows_of
         (process_resume_body (jane_service 1) "Python developer"
            (txt_file "jane.txt" "Jane Doe") ready_world).2
       = rows_of ready_world ++ [row]
    /\ resume_texts
         (session
            (process_resume_body (jane_service 1) "Python developer"
               (txt_file "jane.txt" "Jane Doe") ready_world).2)
       = Some texts'
    /\ forall candidate,
         Candidate_Name row = VStr candidate ->
         dict_get (VStr candidate) "" texts' = text.
Proof.
  apply (processed_text_kept (jane_service 1) "Python developer"
           (txt_file "jane.txt" "Jane Doe") ready_world).
  vm_compute. reflexivity.
Defined.

(** [unhashable_name_row_and_error] on a reply that gives the name as a
    list. *)
Lemma unhashable_name_row_and_error_witness :
  let w' :=
    (process_resume list_name_service "Python developer"
       (txt_file "jane.txt" "Jane Doe") ready_world).2 in
  map Candidate_Name (rows_of w') = [VList [VStr "Jane"; VStr "Doe"]]
  /\ resume_texts (session w') = Some []
  /\ st_errors w' = ["Failed to process jane.txt: unhashable type: 'list'"].
Proof.
  destruct (unhashable_name_row_and_error list_name_service
              "Python developer" (txt_file "jane.txt" "Jane Doe") "Jane Doe"
              ready_world [] [] (Some "list.json")
              (candidate_fields (VList [VStr "Jane"; VStr "Doe"]) (VInt 70))
              70 (VList [VStr "Jane"; VStr "Doe"])
              eq_refl eq_refl eq_refl eq_refl eq_refl eq_refl eq_refl
              eq_refl eq_refl eq_refl)
    as (Hrows & Htexts & Herr).
  simpl. unfold rows_of. rewrite Hrows, Htexts, Herr. repeat split.
Defined.

(** [no_qa_without_text] on the "Unknown" row of a blank document, with
    the Q&A button clicked. *)
Lemma no_qa_without_text_witness :
  ai_calls
    (show_candidates (jane_service 1) qa_click
       (world_with [unknown_row] [(VStr "Unknown", "")])).2
  = ai_calls (world_with [unknown_row] [(VStr "Unknown", "")]).
Proof.
  apply (no_qa_without_text (jane_service 1) qa_click
           (world_with [unknown_row] [(VStr "Unknown", "")])
           [unknown_row] VNone 0%nat [(VStr "Unknown", "")]);
    reflexivity.
Defined.

(** [extraction_failure_reported] on a text file that is not UTF-8. *)
Lemma extraction_failure_reported_witness :
  process_resume (jane_service 1) "Python developer" binary_file ready_world
  = (Ok tt,
     {| session := session ready_world; ai_calls := ai_calls ready_world;
        st_errors :=
          st_errors ready_world
          ++ ["Failed to process " +:+ name binary_file +:+ ": "
              +:+ "'utf-8' codec can't decode byte: invalid start byte"];
        usage_logs := usage_logs ready_world |}).
Proof.
  apply (extraction_failure_reported (jane_service 1) "Python developer"
           binary_file ready_world
           (Exn (LibraryError "UnicodeDecodeError")
              "'utf-8' codec can't decode byte: invalid start byte")).
  right. right. split; reflexivity.
Defined.

(** [other_texts_kept] on Jane's resume, with Ann's text in the store. *)
Lemma other_texts_kept_witness :
  exists row texts',
    rows_of
      (process_resume_body (jane_service 1) "Python developer"
         (txt_file "jane.txt" "Jane Doe") ann_world).2
    = rows_of ann_world ++ [row]
    /\ resume_texts
         (session
            (process_resume_body (jane_service 1) "Python developer"
               (txt_file "jane.txt" "Jane Doe") ann_world).2)
       = Some texts'
    /\ forall other dflt,
         Candidate_Name row <> VStr other ->
         dict_get (VStr other) dflt texts'
         = dict_get (VStr other) dflt [(VStr "Ann", "Ann Lee, Python")].
Proof.
  apply (other_texts_kept (jane_service 1) "Python developer"
           (txt_file "jane.txt" "Jane Doe") ann_world).
  - vm_compute. reflexivity.
  - reflexivity.
Defined.

(** [qa_click_request] with Ann selected and her text in the store. *)
Lemma qa_click_request_witness :
  exists qa,
    (generate_interview_qa qa_service "Python developer" "Ann Lee, Python"
       ann_world).1 = Ok qa
    /\ (show_candidates qa_service qa_click ann_world).2
       = {| session :=
              set_qa_data (VStr qa)
                (init_qa_data
                   (set_selected_candidate (VStr "Ann") (session ann_world)));
            ai_calls :=
              ai_calls ann_world
              ++ [qa_request "Python developer" "Ann Lee, Python"];
            st_errors := st_errors ann_world;
            usage_logs := usage_logs ann_world |}.
Proof.
  apply (qa_click_request qa_service qa_click ann_world [scored "Ann" 40]
           VNone 0%nat [(VStr "Ann", "Ann Lee, Python")]);
    try reflexivity.
  discriminate.
Defined.

(** [batch_isolation] on the batch of three with the picture in the
    middle, and on a batch of two whose first request finds the service
    down. *)
Lemma batch_isolation_witness :
  process_batch (jane_service 3) "Python developer"
    [txt_file "a.txt" "Jane Doe"; png_file; txt_file "c.txt" "Jane Doe"]
    ready_world
  = process_batch (jane_service 3) "Python developer"
      [txt_file "c.txt" "Jane Doe"]
      (report_failure png_file unsupported_file_type
         (process_batch (jane_service 3) "Python developer"
            [txt_file "a.txt" "Jane Doe"] ready_world).2)
  /\ process_batch down_then_jane "Python developer" [alice_cv; carol_cv]
       ready_world
     = process_batch down_then_jane "Python developer" [carol_cv]
         (unevaluated "Python developer" "Alice Smith" ready_world)
  /\ exists outcomes : list document_outcome,
       let w' :=
         (process_batch down_then_jane "Python developer"
            [alice_cv; carol_cv] ready_world).2 in
       Forall2 (outcome_of down_then_jane) [alice_cv; carol_cv] outcomes
       /\ rows_of w' = [] ++ omap fst outcomes
       /\ st_errors w' = st_errors ready_world ++ omap snd outcomes.
Proof.
  split.
  - apply (proj1 (proj2 (proj2
             (batch_isolation (jane_service 3) "Python developer"
                [txt_file "a.txt" "Jane Doe"] png_file
                [txt_file "c.txt" "Jane Doe"] ready_world)))).
    reflexivity.
  - pose proof (proj2 (proj2 (proj2
                  (batch_isolation down_then_jane "Python developer" []
                     alice_cv [carol_cv] ready_world))) [] []
                  eq_refl eq_refl) as [Hrows Hnext].
    split; [|exact Hrows].
    apply (Hnext "Alice Smith"
             (Exn (LibraryError "APIConnectionError") "Connection error."));
      [reflexivity|reflexivity|left; reflexivity].
Defined.
